(** * Bot & Database API: the schema-introspection and session-cache subsystem

    A shallow embedding of [main_bot.py]: the connectDB dispatcher, the three
    backend connectors (PostgreSQL, MySQL, MongoDB), and the session registry
    handlers (setsessionSchema, sessions, session schema, delete session),
    the health endpoint and the two exception handlers.

    Conventions.
    - Python [str] is modelled by [string], read as ASCII text; [py_lower] and
      [py_strip] are [str.lower] and [str.strip] on ASCII code points.
    - Python [int] is [Z]; [str(int)] is the decimal rendering [pretty].
    - JSON-like dynamic values are [pyval]; a [dict] value keeps its insertion
      order (an association list), as iteration order decides which
      validation error is raised first.
    - The two module-level dictionaries [db_connections] and
      [session_schemas] are finite maps keyed by the session id.
    - The handlers run in a state-and-exception monad over [World]: the two
      registries plus a log of the operations made on backend connections.
    - A database server is a record: what it answers to each operation the
      connector performs, and which of them raise. *)

From Stdlib Require Import ZArith Ascii String List Lia.
From stdpp Require Import base strings gmap list sorting pretty.

Local Open Scope Z_scope.

(** ** Python strings *)

Module PyStr.

Definition lower_char (c : ascii) : ascii :=
  let n := nat_of_ascii c in
  if (Nat.leb 65 n && Nat.leb n 90)%bool then ascii_of_nat (n + 32) else c.

(** [str.lower] *)
Fixpoint py_lower (s : string) : string :=
  match s with
  | EmptyString => EmptyString
  | String c s' => String (lower_char c) (py_lower s')
  end.

(** [str.isspace] on one ASCII character: tab, line feed, vertical tab,
    form feed, carriage return, the four separators 0x1c..0x1f, space. *)
Definition isspace (c : ascii) : bool :=
  let n := nat_of_ascii c in
  ((Nat.leb 9 n && Nat.leb n 13) || (Nat.leb 28 n && Nat.leb n 32))%bool.

Fixpoint lstrip (s : string) : string :=
  match s with
  | EmptyString => EmptyString
  | String c s' => if isspace c then lstrip s' else s
  end.

Fixpoint rstrip (s : string) : string :=
  match s with
  | EmptyString => EmptyString
  | String c s' =>
      match rstrip s' with
      | EmptyString => if isspace c then EmptyString else String c EmptyString
      | t => String c t
      end
  end.

(** [str.strip] with no argument *)
Definition py_strip (s : string) : string := rstrip (lstrip s).

(** [str(n)] for an [int] *)
Definition str_int (n : Z) : string := pretty n.

End PyStr.
Export PyStr.

(** ** Dynamic values *)

#[warnings="-register-all"]
Inductive pyval : Type :=
| PyNone
| PyBool (b : bool)
| PyInt (n : Z)
| PyStr (s : string)
| PyList (l : list pyval)
| PyDict (d : list (string * pyval)).

(** Insertion-ordered dictionaries with [str] keys. *)
Module Dict.
Section dict.
Context {V : Type}.

(** [d.get(k)] *)
Fixpoint get (d : list (string * V)) (k : string) : option V :=
  match d with
  | [] => None
  | (k', v) :: d' => if decide (k' = k) then Some v else get d' k
  end.

(** [k in d] *)
Definition mem (k : string) (d : list (string * V)) : bool :=
  match get d k with Some _ => true | None => false end.

(** [d[k] = v]: an existing key keeps its position, a new key goes last *)
Fixpoint set (d : list (string * V)) (k : string) (v : V) : list (string * V) :=
  match d with
  | [] => [(k, v)]
  | (k', v') :: d' =>
      if decide (k' = k) then (k, v) :: d' else (k', v') :: set d' k v
  end.

(** [list(d.keys())] *)
Definition keys (d : list (string * V)) : list string := map fst d.
End dict.
End Dict.

(** ** Request model and exceptions *)

(** [class DatabaseConnection(BaseModel)] *)
Record DatabaseConnection : Type := mkConnection {
  host : string;
  port : Z;
  username : string;
  password : string;
  schema : string;
  tableNames : list string;
  dbtype : string
}.

(** Exception classes the [except] clauses tell apart:
    [asyncpg.PostgresError], [aiomysql.Error], any other [Exception]. *)
Inductive exn_class : Type := PostgresError | MySQLError | OtherException.

#[global] Instance exn_class_eq_dec : EqDecision exn_class.
Proof. solve_decision. Defined.

(** An exception raised inside a connector; [exn_msg] is [str(e)]. *)
Record py_exception : Type := PyException { exn_cls : exn_class; exn_msg : string }.

(** What a handler can raise: [HTTPException(status_code, detail)], or an
    exception that no [except] clause caught. *)
Inductive exn : Type :=
| HTTPException (status_code : Z) (detail : string)
| Uncaught (e : py_exception).

(** The status of the response the exception handlers of the application
    produce: [http_exception_handler] and [general_exception_handler]. *)
Definition response_status {A} (r : exn + A) : Z :=
  match r with
  | inl (HTTPException st _) => st
  | inl (Uncaught _) => 500
  | inr _ => 200
  end.

(** ** The world: the two registries and the connection log *)

Inductive dbkind : Type := Postgres | MySQL | Mongo.

(** Operations on backend connections, in the order they are made. *)
Inductive net_event : Type :=
| EvConnect (k : dbkind) (opened : bool)   (* a connection attempt, and whether it opened one *)
| EvRequest (k : dbkind)                   (* a query or command on the open connection *)
| EvClose (k : dbkind).                    (* close() on the open connection *)

Record World : Type := mkWorld {
  db_connections : gmap string DatabaseConnection;
  session_schemas : gmap string pyval;
  net_log : list net_event
}.

Definition initial_world : World :=
  {| db_connections := ∅; session_schemas := ∅; net_log := [] |}.

(** Connections that are open after a log: each successful connect opens
    one, each close releases one. *)
Definition live_step (n : nat) (e : net_event) : nat :=
  match e with
  | EvConnect _ true => S n
  | EvConnect _ false => n
  | EvRequest _ => n
  | EvClose _ => Nat.pred n
  end.

Definition live_connections (log : list net_event) : nat :=
  fold_left live_step log 0%nat.

(** ** The handler monad: state passing with exceptions

    A raised exception keeps the state reached so far, as in Python. *)

Definition M (E A : Type) : Type := World → World * (E + A).

Definition ret {E A} (a : A) : M E A := λ w, (w, inr a).
Definition raise {E A} (e : E) : M E A := λ w, (w, inl e).
Definition bind {E A B} (m : M E A) (k : A → M E B) : M E B :=
  λ w, match m w with
       | (w1, inl e) => (w1, inl e)
       | (w1, inr a) => k a w1
       end.

Declare Scope py_scope.
Delimit Scope py_scope with py.
Notation "x <- m ;; k" := (bind m (λ x, k))
  (at level 100, m at next level, k at level 200, right associativity) : py_scope.
Notation "m ;;; k" := (bind m (λ _, k))
  (at level 100, k at level 200, right associativity) : py_scope.
Local Open Scope py_scope.

(** [for x in xs: acc = body(acc, x)], stopping at the first exception *)
Fixpoint for_each {E A B} (xs : list A) (acc : B) (body : B → A → M E B) : M E B :=
  match xs with
  | [] => ret acc
  | x :: xs' => acc' <- body acc x ;; for_each xs' acc' body
  end.

(** The world with another log and the same registries. *)
Definition with_log (w : World) (log : list net_event) : World :=
  {| db_connections := db_connections w;
     session_schemas := session_schemas w;
     net_log := log |}.

Definition log_event {E} (e : net_event) : M E unit :=
  λ w, (with_log w (net_log w ++ [e]), inr tt).

(** [db_connections[sid] = connection.dict()] *)
Definition store_connection {E} (sid : string) (c : DatabaseConnection) : M E unit :=
  λ w, ({| db_connections := <[sid := c]> (db_connections w);
           session_schemas := session_schemas w;
           net_log := net_log w |}, inr tt).

(** [session_schemas[sid] = v] *)
Definition store_schema {E} (sid : string) (v : pyval) : M E unit :=
  λ w, ({| db_connections := db_connections w;
           session_schemas := <[sid := v]> (session_schemas w);
           net_log := net_log w |}, inr tt).

(** An operation on a connection of kind [k]: it is logged, then raises or
    answers as the server says. *)
Definition request {A} (k : dbkind) (fault : option py_exception) (answer : A)
  : M py_exception A :=
  log_event (EvRequest k) ;;;
  match fault with
  | Some e => raise e
  | None => ret answer
  end.

(** The unified column record both kinds of connector produce. *)
Definition column_record (name type nullable : string)
    (default : option string) (max_length : option Z) : pyval :=
  PyDict [ ("column_name", PyStr name);
           ("data_type", PyStr type);
           ("is_nullable", PyStr nullable);
           ("default_value", match default with Some s => PyStr s | None => PyNone end);
           ("max_length", match max_length with Some n => PyInt n | None => PyNone end) ].

(** [f"{connection.host}:{connection.port}:{connection.schema}"] *)
Definition session_id_of (c : DatabaseConnection) : string :=
  host c +:+ ":" +:+ str_int (port c) +:+ ":" +:+ schema c.

(** The dictionary a connector returns on success. *)
Definition connect_response (sid : string) (table_info : list (string * pyval)) : pyval :=
  PyDict [ ("status", PyStr "success");
           ("session_id", PyStr sid);
           ("schema_info", PyDict table_info) ].

(** Lines 193-201, 267-275 and 328-336: derive the id, store, answer. *)
Definition register_session {E} (c : DatabaseConnection)
    (table_info : list (string * pyval)) : M E pyval :=
  let session_id := session_id_of c in
  store_connection session_id c ;;;
  store_schema session_id (PyDict table_info) ;;;
  ret (connect_response session_id table_info).

(** ** Relational servers

    The rows of the three [information_schema] views the connectors read,
    and which operations raise. *)

Record tables_row : Type := TablesRow {
  table_schema : string;
  table_name : string;
  table_type : string
}.

Record columns_row : Type := ColumnsRow {
  col_table_schema : string;
  col_table_name : string;
  column_name : string;
  data_type : string;
  is_nullable : string;
  column_default : option string;
  character_maximum_length : option Z;
  ordinal_position : Z
}.

Inductive sql_op : Type :=
| SqlConnect
| SelectSchemata
| SelectTables (schema_name : string)
| SelectColumns (schema_name tbl : string)
| ShowTables
| SqlClose.

#[global] Instance sql_op_eq_dec : EqDecision sql_op.
Proof. solve_decision. Defined.

Record SqlServer : Type := mkSqlServer {
  sql_fault : sql_op → option py_exception;
  schemata : list string;
  tables : list tables_row;
  columns : list columns_row
}.

Definition by_ordinal (r1 r2 : columns_row) : Prop :=
  ordinal_position r1 ≤ ordinal_position r2.

#[global] Instance by_ordinal_dec r1 r2 : Decision (by_ordinal r1 r2).
Proof. unfold by_ordinal. apply _. Defined.

(** [SELECT schema_name FROM information_schema.schemata
     WHERE schema_name NOT IN ('pg_catalog', 'information_schema')] *)
Definition schemas_query (srv : SqlServer) : list string :=
  filter (λ s, s ≠ "pg_catalog" ∧ s ≠ "information_schema") (schemata srv).

(** [SELECT table_name FROM information_schema.tables
     WHERE table_schema = $1 AND table_type = 'BASE TABLE'] *)
Definition tables_query (srv : SqlServer) (schema_name : string) : list string :=
  table_name <$>
    filter (λ r, table_schema r = schema_name ∧ table_type r = "BASE TABLE") (tables srv).

(** [SELECT column_name, data_type, is_nullable, column_default,
            character_maximum_length
     FROM information_schema.columns
     WHERE table_schema = $1 AND table_name = $2
     ORDER BY ordinal_position] *)
Definition columns_query (srv : SqlServer) (schema_name tbl : string) : list columns_row :=
  merge_sort by_ordinal
    (filter (λ r, col_table_schema r = schema_name ∧ col_table_name r = tbl) (columns srv)).

(** [SHOW TABLES] on a connection whose default database is [db] *)
Definition show_tables (srv : SqlServer) (db : string) : list string :=
  table_name <$> filter (λ r, table_schema r = db) (tables srv).

(** [str(v) if v else None] for a cell that is [None] or a [str]:
    the empty string is falsy. *)
Definition str_if_truthy (v : option string) : option string :=
  match v with
  | Some s => if decide (s = "") then None else Some s
  | None => None
  end.

(** The dictionary built per row at lines 182-188 and 256-262. *)
Definition sql_column (col : columns_row) : pyval :=
  column_record (column_name col) (data_type col) (is_nullable col)
    (str_if_truthy (column_default col)) (character_maximum_length col).

(** ** The connector skeleton

    All three connectors have the same shape:
<<
    conn = None
    try:
        conn = connect(...)
        body
    except Caught as e:
        raise HTTPException(status_code=500, detail=prefix + str(e))
    finally:
        if conn:
            conn.close()
>>
    [open_fault] and [close_fault] say whether connecting and closing raise,
    [caught] is the [except] clause's class test, [prefix] its message
    prefix. An exception the clause does not catch propagates; an exception
    raised by [close] in the [finally] block replaces the pending outcome. *)

Definition connector {A} (k : dbkind) (open_fault close_fault : option py_exception)
    (caught : exn_class → bool) (prefix : string)
    (body : M py_exception A) : M exn A := λ w,
  (* try *)
  let '(w1, conn, r) :=
    match log_event (E := py_exception)
            (EvConnect k (match open_fault with Some _ => false | None => true end)) w with
    | (w0, _) =>
        match open_fault with
        | Some e => (w0, false, inl e)
        | None => let '(w1, r) := body w0 in (w1, true, r)
        end
    end in
  (* except *)
  let r1 : exn + A :=
    match r with
    | inl e =>
        if caught (exn_cls e)
        then inl (HTTPException 500 (prefix +:+ exn_msg e))
        else inl (Uncaught e)
    | inr v => inr v
    end in
  (* finally *)
  if (conn : bool) then
    match log_event (E := py_exception) (EvClose k) w1 with
    | (w2, _) =>
        match close_fault with
        | Some e => (w2, inl (Uncaught e))
        | None => (w2, r1)
        end
    end
  else (w1, r1).

(** ** PostgreSQL *)

(** [table_info[schema_name][tbl] = v]; a missing outer key is a [KeyError] *)
Definition set_nested (table_info : list (string * pyval))
    (schema_name tbl : string) (v : pyval) : M py_exception (list (string * pyval)) :=
  match Dict.get table_info schema_name with
  | Some (PyDict inner) =>
      ret (Dict.set table_info schema_name (PyDict (Dict.set inner tbl v)))
  | _ => raise (PyException OtherException ("'" +:+ schema_name +:+ "'"))
  end.

(** Lines 141-191. *)
Definition pg_introspect (srv : SqlServer) : M py_exception (list (string * pyval)) :=
  schema_names <- request Postgres (sql_fault srv SelectSchemata) (schemas_query srv) ;;
  for_each schema_names [] (λ table_info schema_name,
    table_names <- request Postgres (sql_fault srv (SelectTables schema_name))
                     (tables_query srv schema_name) ;;
    for_each table_names (Dict.set table_info schema_name (PyDict []))
      (λ table_info tbl,
        columns <- request Postgres (sql_fault srv (SelectColumns schema_name tbl))
                     (columns_query srv schema_name tbl) ;;
        set_nested table_info schema_name tbl (PyList (sql_column <$> columns)))).

Definition connect_postgresql (srv : SqlServer) (connection : DatabaseConnection)
  : M exn pyval :=
  connector Postgres (sql_fault srv SqlConnect) (sql_fault srv SqlClose)
    (λ c, bool_decide (c = PostgresError)) "PostgreSQL error: "
    (table_info <- pg_introspect srv ;;
     register_session connection table_info).

(** ** MySQL *)

(** Lines 227-265. *)
Definition mysql_introspect (srv : SqlServer) (connection : DatabaseConnection)
  : M py_exception (list (string * pyval)) :=
  table_names <- request MySQL (sql_fault srv ShowTables)
                   (show_tables srv (schema connection)) ;;
  for_each table_names [] (λ table_info tbl,
    columns <- request MySQL (sql_fault srv (SelectColumns (schema connection) tbl))
                 (columns_query srv (schema connection) tbl) ;;
    ret (Dict.set table_info tbl (PyList (sql_column <$> columns)))).

Definition connect_mysql (srv : SqlServer) (connection : DatabaseConnection)
  : M exn pyval :=
  connector MySQL (sql_fault srv SqlConnect) (sql_fault srv SqlClose)
    (λ c, bool_decide (c = MySQLError)) "MySQL error: "
    (table_info <- mysql_introspect srv connection ;;
     register_session connection table_info).

(** ** MongoDB *)

(** A decoded document value, as far as [type(value).__name__] tells them
    apart. *)
#[warnings="-register-all"]
Inductive doc_value : Type :=
| DNone
| DBool (b : bool)
| DInt (n : Z)
| DInt64 (n : Z)
| DFloat (mantissa exponent : Z)
| DStr (s : string)
| DBytes (b : string)
| DObjectId (hex : string)
| DDatetime (millis : Z)
| DList (l : list doc_value)
| DDict (d : list (string * doc_value)).

(** [type(value).__name__] *)
Definition type_name (v : doc_value) : string :=
  match v with
  | DNone => "NoneType"
  | DBool _ => "bool"
  | DInt _ => "int"
  | DInt64 _ => "Int64"
  | DFloat _ _ => "float"
  | DStr _ => "str"
  | DBytes _ => "bytes"
  | DObjectId _ => "ObjectId"
  | DDatetime _ => "datetime"
  | DList _ => "list"
  | DDict _ => "dict"
  end.

Inductive mongo_op : Type :=
| NewClient
| GetDatabase (name : string)
| ServerInfo
| ListCollectionNames
| FindOne (collection : string)
| MongoClose.

#[global] Instance mongo_op_eq_dec : EqDecision mongo_op.
Proof. solve_decision. Defined.

Record MongoServer : Type := mkMongoServer {
  mongo_fault : mongo_op → option py_exception;
  collection_names_of : string → list string;
  first_document : string → string → option (list (string * doc_value))
}.

(** The dictionary built per field at lines 313-319. *)
Definition mongo_column (item : string * doc_value) : pyval :=
  column_record (fst item) (type_name (snd item)) "YES" None None.

(** Lines 311-326: the entry for one collection, from [find_one()].
    [None] and the empty document are falsy. *)
Definition collection_columns (sample_doc : option (list (string * doc_value))) : pyval :=
  match sample_doc with
  | Some (item :: items) => PyList (mongo_column <$> item :: items)
  | Some [] => PyList []
  | None => PyList []
  end.

(** Lines 295-326. [client[name]] makes no request but can raise. *)
Definition mongo_introspect (srv : MongoServer) (connection : DatabaseConnection)
  : M py_exception (list (string * pyval)) :=
  match mongo_fault srv (GetDatabase (schema connection)) with
  | Some e => raise e
  | None =>
      request Mongo (mongo_fault srv ServerInfo) tt ;;;
      collection_names <- request Mongo (mongo_fault srv ListCollectionNames)
                            (collection_names_of srv (schema connection)) ;;
      for_each collection_names [] (λ table_info collection_name,
        sample_doc <- request Mongo (mongo_fault srv (FindOne collection_name))
                        (first_document srv (schema connection) collection_name) ;;
        ret (Dict.set table_info collection_name (collection_columns sample_doc)))
  end.

Definition connect_mongodb (srv : MongoServer) (connection : DatabaseConnection)
  : M exn pyval :=
  connector Mongo (mongo_fault srv NewClient) (mongo_fault srv MongoClose)
    (λ _, true) "MongoDB connection error: "
    (table_info <- mongo_introspect srv connection ;;
     register_session connection table_info).

(** ** Dispatch: POST /connectDB *)

(** The servers a request can reach. *)
Record Network : Type := mkNetwork {
  pg_server : SqlServer;
  mysql_server : SqlServer;
  mongo_server : MongoServer
}.

Definition unsupported_detail (raw_dbtype : string) : string :=
  "Unsupported database type: '" +:+ raw_dbtype
    +:+ "'. Supported types are: postgresql, mysql, mongodb".

Definition connect_database (net : Network) (connection : DatabaseConnection)
  : M exn pyval := λ w,
  let dbtype' := py_strip (py_lower (dbtype connection)) in
  let '(w1, r) :=
    (if decide (dbtype' = "postgresql") then connect_postgresql (pg_server net) connection
     else if decide (dbtype' = "mysql") then connect_mysql (mysql_server net) connection
     else if decide (dbtype' = "mongodb") then connect_mongodb (mongo_server net) connection
     else raise (HTTPException 400 (unsupported_detail (dbtype connection)))) w in
  match r with
  | inl (HTTPException st d) => (w1, inl (HTTPException st d))   (* except HTTPException: raise *)
  | inl (Uncaught e) =>                                          (* except Exception as e *)
      (w1, inl (HTTPException 500 ("Database connection failed: " +:+ exn_msg e)))
  | inr v => (w1, inr v)
  end.

(** ** Session registry handlers *)

(** The three validation failures of lines 357-364. *)
Inductive schema_error : Type :=
| NotAList (tbl : string)
| NotADict (idx : nat) (tbl : string)
| NoColumnName (idx : nat) (tbl : string).

(** The [detail] of the [HTTPException] raised for each. *)
Definition error_detail (e : schema_error) : string :=
  match e with
  | NotAList tbl =>
      "Invalid schema for table " +:+ tbl +:+ ". Expected a list of columns."
  | NotADict idx tbl =>
      "Invalid column definition at index " +:+ pretty idx +:+ " in table " +:+ tbl
  | NoColumnName idx tbl =>
      "Missing 'column_name' in column at index " +:+ pretty idx +:+ " in table " +:+ tbl
  end.

(** Lines 360-364: [for idx, column in enumerate(columns)], from [idx] on.
    [None] when every entry passes, else the first failure. *)
Fixpoint check_columns (tbl : string) (idx : nat) (columns : list pyval)
  : option schema_error :=
  match columns with
  | [] => None
  | column :: rest =>
      match column with
      | PyDict d =>
          if Dict.mem "column_name" d then check_columns tbl (S idx) rest
          else Some (NoColumnName idx tbl)
      | _ => Some (NotADict idx tbl)
      end
  end.

(** Lines 356-364: [for table_name, columns in schema.items()]. *)
Fixpoint check_schema (items : list (string * pyval)) : option schema_error :=
  match items with
  | [] => None
  | (tbl, columns) :: rest =>
      match columns with
      | PyList l =>
          match check_columns tbl 0 l with
          | Some e => Some e
          | None => check_schema rest
          end
      | _ => Some (NotAList tbl)
      end
  end.

(** POST /setsessionSchema. The body raises nothing but [HTTPException],
    which the outer [except HTTPException: raise] passes on. The submitted
    mapping is taken as the handler's own [isinstance] checks take it, with
    values of any kind; the annotation of line 348 declares
    [Dict[str, List[Dict[str, Any]]]] for it. *)
Definition set_session_schema (session_id : string) (new_schema : list (string * pyval))
  : M exn pyval := λ w,
  match db_connections w !! session_id with
  | None =>
      (w, inl (HTTPException 404 "Session not found. Please connect to database first."))
  | Some _ =>
      match check_schema new_schema with
      | Some e => (w, inl (HTTPException 400 (error_detail e)))
      | None =>
          (store_schema session_id (PyDict new_schema) ;;;
           ret (PyDict [ ("status", PyStr "success");
                         ("message", PyStr "Session schema set successfully");
                         ("session_id", PyStr session_id);
                         ("tables", PyList (PyStr <$> Dict.keys new_schema)) ])) w
      end
  end.

(** GET /session/{session_id}/schema *)
Definition get_session_schema (session_id : string) : M exn pyval := λ w,
  match db_connections w !! session_id with
  | None => (w, inl (HTTPException 404 "Session not found"))
  | Some c =>
      match session_schemas w !! session_id with
      | None => (w, inl (HTTPException 404 "Session schema not defined"))
      | Some sch =>
          (w, inr (PyDict [ ("session_id", PyStr session_id);
                            ("schema", sch);
                            ("connection_info",
                              PyDict [ ("dbtype", PyStr (dbtype c));
                                       ("host", PyStr (host c));
                                       ("schema", PyStr (schema c)) ]) ]))
      end
  end.

(** DELETE /session/{session_id} *)
Definition delete_session (session_id : string) : M exn pyval := λ w,
  match db_connections w !! session_id with
  | None => (w, inl (HTTPException 404 "Session not found"))
  | Some _ =>
      ({| db_connections := delete session_id (db_connections w);
          session_schemas := delete session_id (session_schemas w);
          net_log := net_log w |},
       inr (PyDict [ ("status", PyStr "success");
                     ("message",
                       PyStr ("Session " +:+ session_id +:+ " deleted successfully")) ]))
  end.

(** One entry of [session_details] in GET /sessions. *)
Definition session_detail (w : World) (session_id : string) (details : DatabaseConnection)
  : list (string * pyval) :=
  [ ("session_id", PyStr session_id);
    ("dbtype", PyStr (dbtype details));
    ("host", PyStr (host details));
    ("port", PyInt (port details));
    ("schema", PyStr (schema details));
    ("has_schema_defined",
      PyBool (bool_decide (is_Some (session_schemas w !! session_id)))) ].

(** GET /sessions. The sessions are listed in the order [map_to_list]
    gives, not in insertion order. *)
Definition get_active_sessions : M exn pyval := λ w,
  let items := map_to_list (db_connections w) in
  (w, inr (PyDict [ ("active_sessions", PyList ((λ kv, PyStr (fst kv)) <$> items));
                    ("session_details",
                      PyList ((λ kv, PyDict (session_detail w (fst kv) (snd kv)))
                                <$> items)) ])).

(** ** The API as a whole *)

Inductive api_call : Type :=
| ConnectDB (net : Network) (connection : DatabaseConnection)
| SetSessionSchema (session_id : string) (body : list (string * pyval))
| GetSessions
| GetSessionSchema (session_id : string)
| DeleteSession (session_id : string).

Definition handle (call : api_call) : M exn pyval :=
  match call with
  | ConnectDB net connection => connect_database net connection
  | SetSessionSchema session_id body => set_session_schema session_id body
  | GetSessions => get_active_sessions
  | GetSessionSchema session_id => get_session_schema session_id
  | DeleteSession session_id => delete_session session_id
  end.

(** The world after a sequence of calls, whatever each one answered. *)
Definition run_calls (calls : list api_call) (w : World) : World :=
  fold_left (λ w call, fst (handle call w)) calls w.

(** ** Responses

    What the client receives for a request that reached a handler: the
    value the handler returns goes out with status 200; an [HTTPException]
    goes through [http_exception_handler], any other exception through
    [general_exception_handler]. The answers the framework gives before a
    handler runs (an unmatched path, a body that does not fit the declared
    model) are not modelled. *)

Record response : Type := Response {
  status : Z;
  content : pyval
}.

(** Lines 50-55. *)
Definition http_exception_handler (status_code : Z) (detail : string) : response :=
  {| status := status_code;
     content := PyDict [ ("error", PyStr detail); ("status_code", PyInt status_code) ] |}.

(** Lines 57-63. *)
Definition general_exception_handler (exc : py_exception) : response :=
  {| status := 500;
     content := PyDict [ ("error", PyStr ("Internal server error: " +:+ exn_msg exc));
                         ("status_code", PyInt 500) ] |}.

Definition respond (r : exn + pyval) : response :=
  match r with
  | inr v => {| status := 200; content := v |}
  | inl (HTTPException status_code detail) => http_exception_handler status_code detail
  | inl (Uncaught exc) => general_exception_handler exc
  end.

(** ** GET /health *)

Definition health_check : M exn pyval := λ w,
  (w, inr (PyDict [ ("status", PyStr "healthy");
                    ("active_sessions", PyInt (Z.of_nat (size (db_connections w))));
                    ("configured_schemas", PyInt (Z.of_nat (size (session_schemas w))));
                    ("supported_databases",
                      PyList [PyStr "postgresql"; PyStr "mysql"; PyStr "mongodb"]) ])).

(** ** GET /example/setsessionSchema

    The [url] and [body] fields of the example (lines 501-544). *)

Definition example_set_session_schema_session_id : string :=
  "localhost:5432:mydatabase".

Definition example_set_session_schema_body : list (string * pyval) :=
  [ ("users",
      PyList
        [ PyDict [ ("column_name", PyStr "id"); ("data_type", PyStr "integer");
                   ("is_nullable", PyStr "NO"); ("is_primary_key", PyBool true) ];
          PyDict [ ("column_name", PyStr "username"); ("data_type", PyStr "varchar");
                   ("is_nullable", PyStr "NO"); ("max_length", PyInt 50) ];
          PyDict [ ("column_name", PyStr "email"); ("data_type", PyStr "varchar");
                   ("is_nullable", PyStr "YES"); ("max_length", PyInt 100) ] ]);
    ("products",
      PyList
        [ PyDict [ ("column_name", PyStr "id"); ("data_type", PyStr "integer");
                   ("is_nullable", PyStr "NO"); ("is_primary_key", PyBool true) ];
          PyDict [ ("column_name", PyStr "name"); ("data_type", PyStr "varchar");
                   ("is_nullable", PyStr "NO"); ("max_length", PyInt 200) ];
          PyDict [ ("column_name", PyStr "price"); ("data_type", PyStr "decimal");
                   ("is_nullable", PyStr "NO"); ("precision", PyInt 10);
                   ("scale", PyInt 2) ] ]) ].

(** * Vocabulary of the properties *)

(** ** Introspection only reads

    The introspection phase of a connector leaves both registries alone and
    logs nothing but requests on the connection it was given. *)

Definition is_request (e : net_event) : bool :=
  match e with EvRequest _ => true | _ => false end.

Definition requests_only (evs : list net_event) : Prop :=
  Forall (λ e, is_request e = true) evs.

Definition read_only {A} (m : M py_exception A) : Prop :=
  ∀ w, ∃ reqs, requests_only reqs ∧ fst (m w) = with_log w (net_log w ++ reqs).

(** The action raises in every world. *)
Definition fails {A} (m : M py_exception A) : Prop :=
  ∀ w, ∃ e, snd (m w) = inl e.

(** ** How a connector call ends

    The three ways through the skeleton, for a body that introspects and
    then registers the session: the connection was refused; it was opened
    but introspection raised; introspection finished and the session was
    stored. In the last two the connection is closed, and [close] raising
    replaces the outcome. *)

Definition translate (caught : exn_class → bool) (prefix : string) (e : py_exception) : exn :=
  if caught (exn_cls e) then HTTPException 500 (prefix +:+ exn_msg e) else Uncaught e.

Definition after_close {A} (close_fault : option py_exception) (r : exn + A) : exn + A :=
  match close_fault with
  | Some e => inl (Uncaught e)
  | None => r
  end.

Inductive connector_outcome (k : dbkind) (open_fault close_fault : option py_exception)
    (caught : exn_class → bool) (prefix : string) (c : DatabaseConnection)
    (intro : M py_exception (list (string * pyval))) (w : World)
  : World → exn + pyval → Prop :=
| outcome_refused e :
    open_fault = Some e →
    connector_outcome k open_fault close_fault caught prefix c intro w
      (with_log w (net_log w ++ [EvConnect k false]))
      (inl (translate caught prefix e))
| outcome_aborted reqs e :
    open_fault = None →
    requests_only reqs →
    snd (intro (with_log w (net_log w ++ [EvConnect k true]))) = inl e →
    connector_outcome k open_fault close_fault caught prefix c intro w
      (with_log w (net_log w ++ EvConnect k true :: reqs ++ [EvClose k]))
      (after_close close_fault (inl (translate caught prefix e)))
| outcome_stored reqs table_info :
    open_fault = None →
    requests_only reqs →
    snd (intro (with_log w (net_log w ++ [EvConnect k true]))) = inr table_info →
    connector_outcome k open_fault close_fault caught prefix c intro w
      {| db_connections := <[session_id_of c := c]> (db_connections w);
         session_schemas := <[session_id_of c := PyDict table_info]> (session_schemas w);
         net_log := net_log w ++ EvConnect k true :: reqs ++ [EvClose k] |}
      (after_close close_fault (inr (connect_response (session_id_of c) table_info))).

(** ** The three connectors as instances of the skeleton *)

(** The backend a request selects, if its [dbtype] is supported. *)
Definition declared_backend (c : DatabaseConnection) : option dbkind :=
  let t := py_strip (py_lower (dbtype c)) in
  if decide (t = "postgresql") then Some Postgres
  else if decide (t = "mysql") then Some MySQL
  else if decide (t = "mongodb") then Some Mongo
  else None.

Definition connector_of (net : Network) (c : DatabaseConnection) (k : dbkind) : M exn pyval :=
  match k with
  | Postgres => connect_postgresql (pg_server net) c
  | MySQL => connect_mysql (mysql_server net) c
  | Mongo => connect_mongodb (mongo_server net) c
  end.

Definition open_fault_of (net : Network) (k : dbkind) : option py_exception :=
  match k with
  | Postgres => sql_fault (pg_server net) SqlConnect
  | MySQL => sql_fault (mysql_server net) SqlConnect
  | Mongo => mongo_fault (mongo_server net) NewClient
  end.

Definition close_fault_of (net : Network) (k : dbkind) : option py_exception :=
  match k with
  | Postgres => sql_fault (pg_server net) SqlClose
  | MySQL => sql_fault (mysql_server net) SqlClose
  | Mongo => mongo_fault (mongo_server net) MongoClose
  end.

Definition caught_of (k : dbkind) : exn_class → bool :=
  match k with
  | Postgres => λ c, bool_decide (c = PostgresError)
  | MySQL => λ c, bool_decide (c = MySQLError)
  | Mongo => λ _, true
  end.

Definition prefix_of (k : dbkind) : string :=
  match k with
  | Postgres => "PostgreSQL error: "
  | MySQL => "MySQL error: "
  | Mongo => "MongoDB connection error: "
  end.

Definition introspect_of (net : Network) (c : DatabaseConnection) (k : dbkind)
  : M py_exception (list (string * pyval)) :=
  match k with
  | Postgres => pg_introspect (pg_server net)
  | MySQL => mysql_introspect (mysql_server net) c
  | Mongo => mongo_introspect (mongo_server net) c
  end.

(** The two [except] clauses of [connect_database]. *)
Definition reraise (r : exn + pyval) : exn + pyval :=
  match r with
  | inl (Uncaught e) =>
      inl (HTTPException 500 ("Database connection failed: " +:+ exn_msg e))
  | _ => r
  end.

(** The log a connector leaves: nothing was opened, or the one connection
    it opened was closed as the last operation. *)
Definition released (k : dbkind) (w w' : World) : Prop :=
  (∃ evs, net_log w' = net_log w ++ evs ∧
     (evs = [EvConnect k false] ∨
      ∃ reqs, requests_only reqs ∧ evs = EvConnect k true :: reqs ++ [EvClose k]))
  ∧ live_connections (net_log w') = live_connections (net_log w).

(** ** Steps 1 to 4 of a connector

    The operations a connector makes before it stores anything, when none
    of them raises: connecting, the liveness check, enumerating the objects,
    and retrieving the columns of each. *)

Definition pg_steps (srv : SqlServer) : list sql_op :=
  SqlConnect :: SelectSchemata ::
  (schemas_query srv ≫= λ s,
     SelectTables s :: (SelectColumns s <$> tables_query srv s)).

Definition mysql_steps (srv : SqlServer) (c : DatabaseConnection) : list sql_op :=
  SqlConnect :: ShowTables ::
  (SelectColumns (schema c) <$> show_tables srv (schema c)).

Definition mongo_steps (srv : MongoServer) (c : DatabaseConnection) : list mongo_op :=
  NewClient :: GetDatabase (schema c) :: ServerInfo :: ListCollectionNames ::
  (FindOne <$> collection_names_of srv (schema c)).

(** Some step of the connector for backend [k] raises. *)
Definition backend_error (net : Network) (c : DatabaseConnection) (k : dbkind) : Prop :=
  match k with
  | Postgres =>
      ∃ op, op ∈ pg_steps (pg_server net) ∧ is_Some (sql_fault (pg_server net) op)
  | MySQL =>
      ∃ op, op ∈ mysql_steps (mysql_server net) c
            ∧ is_Some (sql_fault (mysql_server net) op)
  | Mongo =>
      ∃ op, op ∈ mongo_steps (mongo_server net) c
            ∧ is_Some (mongo_fault (mongo_server net) op)
  end.

(** ** Example requests and servers

    The requests are those of [example_connect_db]. *)

Definition postgresql_example : DatabaseConnection :=
  mkConnection "localhost" 5432 "myuser" "mypassword" "mydatabase" [] "postgresql".

Definition mysql_example : DatabaseConnection :=
  mkConnection "localhost" 3306 "root" "password" "mydb" [] "mysql".

Definition mongodb_example : DatabaseConnection :=
  mkConnection "localhost" 27017 "admin" "password" "mydb" [] "mongodb".

Definition oracle_request : DatabaseConnection :=
  mkConnection "localhost" 1521 "system" "password" "orcl" [] "oracle".

(** A relational server with one table [users(id, username, email)], whose
    rows are stored out of ordinal order. *)
Definition users_server : SqlServer :=
  {| sql_fault := λ _, None;
     schemata := ["pg_catalog"; "public"; "information_schema"];
     tables := [ TablesRow "public" "users" "BASE TABLE";
                 TablesRow "mydb" "users" "BASE TABLE" ];
     columns :=
       [ ColumnsRow "public" "users" "email" "character varying" "YES" None (Some 100) 3;
         ColumnsRow "public" "users" "id" "integer" "NO"
           (Some "nextval('users_id_seq'::regclass)") None 1;
         ColumnsRow "public" "users" "username" "character varying" "NO" None (Some 50) 2;
         ColumnsRow "mydb" "users" "email" "varchar" "YES" None (Some 100) 3;
         ColumnsRow "mydb" "users" "id" "int" "NO" None None 1;
         ColumnsRow "mydb" "users" "username" "varchar" "NO" (Some "") (Some 50) 2 ] |}.

(** A server that refuses every connection. *)
Definition unreachable_server : SqlServer :=
  {| sql_fault := λ op,
       match op with
       | SqlConnect => Some (PyException OtherException "Connection refused")
       | _ => None
       end;
     schemata := []; tables := []; columns := [] |}.

(** A document server with collections [people] (one document) and
    [empty] (none). *)
Definition people_server : MongoServer :=
  {| mongo_fault := λ _, None;
     collection_names_of := λ _, ["people"; "empty"];
     first_document := λ _ coll,
       if decide (coll = "people")
       then Some [("_id", DObjectId "65f0c0ffee"); ("a", DInt 1); ("b", DStr "x")]
       else None |}.

(** The same server, whose [close] raises. *)
Definition close_raises_server : SqlServer :=
  {| sql_fault := λ op,
       match op with
       | SqlClose => Some (PyException OtherException "connection was closed")
       | _ => None
       end;
     schemata := schemata users_server;
     tables := tables users_server;
     columns := columns users_server |}.

Definition example_net : Network :=
  {| pg_server := users_server; mysql_server := users_server;
     mongo_server := people_server |}.

Definition unreachable_net : Network :=
  {| pg_server := unreachable_server; mysql_server := unreachable_server;
     mongo_server := people_server |}.

(** The value a handler returned, [None] if it raised. *)
Definition returned (r : exn + pyval) : pyval :=
  match r with
  | inr v => v
  | inl _ => PyNone
  end.

(** The world after [postgresql_example] connected to [example_net]: one
    session, [localhost:5432:mydatabase]. *)
Definition connected_world : World :=
  fst (connect_database example_net postgresql_example initial_world).

(** ** Well-formed schema overrides *)

(** A column entry is a dictionary with a [column_name] key. *)
Definition valid_column (column : pyval) : Prop :=
  ∃ d, column = PyDict d ∧ "column_name" ∈ Dict.keys d.

(** A table's value is a list of valid column entries. *)
Definition valid_table (columns : pyval) : Prop :=
  ∃ l, columns = PyList l ∧ Forall valid_column l.

Definition valid_schema (body : list (string * pyval)) : Prop :=
  Forall (λ item, valid_table (snd item)) body.


(** A body of the type the endpoint declares for it,
    [Dict[str, List[Dict[str, Any]]]]: every value is a list of
    dictionaries. *)
Definition declared_body (body : list (string * pyval)) : Prop :=
  Forall (λ item, ∃ l, snd item = PyList l
                       ∧ Forall (λ column, ∃ d, column = PyDict d) l) body.

(** The dictionary a loop [for x in xs: d[x] = entry(x)] leaves. *)
Definition filled {A} (entry : string → A) (xs : list string) (d : list (string * A))
  : list (string * A) :=
  fold_left (λ acc x, Dict.set acc x (entry x)) xs d.

(** The call cannot register session id [sid]: it is no connectDB request
    that derives [sid], or it is one whose [dbtype] is unsupported, or one
    in which connecting, the liveness check, the enumeration of objects or
    the retrieval of columns raises. *)
Definition cannot_register (sid : string) (call : api_call) : Prop :=
  match call with
  | ConnectDB net c =>
      session_id_of c ≠ sid
      ∨ declared_backend c = None
      ∨ ∃ k, declared_backend c = Some k ∧ backend_error net c k
  | _ => True
  end.

(** The servers of [example_net], with a PostgreSQL server whose [close]
    raises. *)
Definition close_raises_net : Network :=
  {| pg_server := close_raises_server; mysql_server := users_server;
     mongo_server := people_server |}.

(** ** Further vocabulary *)

(** The fields of a stored request that the read endpoints show. *)
Definition same_public_fields (c1 c2 : DatabaseConnection) : Prop :=
  dbtype c1 = dbtype c2 ∧ host c1 = host c2 ∧ port c1 = port c2 ∧ schema c1 = schema c2.

(** The string has no colon. *)
Fixpoint no_colon (s : string) : Prop :=
  match s with
  | EmptyString => True
  | String c s' => c ≠ ":"%char ∧ no_colon s'
  end.

(** The string is ASCII whitespace only. *)
Fixpoint all_space (s : string) : Prop :=
  match s with
  | EmptyString => True
  | String c s' => isspace c = true ∧ all_space s'
  end.

(** A MySQL request whose [dbtype] is capitalised and padded. *)
Definition padded_mysql_request : DatabaseConnection :=
  mkConnection "db" 3306 "u" "p" "mydb" [] " MySQL ".

(** ** The schema a fault-free introspection builds *)

(** The list stored for one relational table. *)
Definition table_columns (srv : SqlServer) (schema_name tbl : string) : pyval :=
  PyList (sql_column <$> columns_query srv schema_name tbl).

(** PostgreSQL: the tables of one schema, then the schemas. *)
Definition pg_schema_tables (srv : SqlServer) (schema_name : string) : pyval :=
  PyDict (filled (table_columns srv schema_name) (tables_query srv schema_name) []).

Definition pg_schema_info (srv : SqlServer) : list (string * pyval) :=
  filled (pg_schema_tables srv) (schemas_query srv) [].

Definition mysql_schema_info (srv : SqlServer) (db : string) : list (string * pyval) :=
  filled (table_columns srv db) (show_tables srv db) [].

Definition mongo_schema_info (srv : MongoServer) (db : string) : list (string * pyval) :=
  filled (λ coll, collection_columns (first_document srv db coll))
    (collection_names_of srv db) [].

Definition schema_info_of (net : Network) (c : DatabaseConnection) (k : dbkind)
  : list (string * pyval) :=
  match k with
  | Postgres => pg_schema_info (pg_server net)
  | MySQL => mysql_schema_info (mysql_server net) (schema c)
  | Mongo => mongo_schema_info (mongo_server net) (schema c)
  end.

(** The requests a fault-free introspection makes: PostgreSQL one for the
    schemas, one per schema for its tables, one per table for its columns;
    MySQL one for the tables and one per table; MongoDB the liveness check,
    the collection names, and one per collection. *)
Definition request_count (net : Network) (c : DatabaseConnection) (k : dbkind) : nat :=
  match k with
  | Postgres =>
      S (length (schemas_query (pg_server net) ≫= λ s,
                   s :: tables_query (pg_server net) s))
  | MySQL => S (length (show_tables (mysql_server net) (schema c)))
  | Mongo => S (S (length (collection_names_of (mongo_server net) (schema c))))
  end.

(** The normalised name of a backend. *)
Definition backend_name (k : dbkind) : string :=
  match k with
  | Postgres => "postgresql"
  | MySQL => "mysql"
  | Mongo => "mongodb"
  end.

(** Every stored request derives the id it is stored under, and was
    submitted by a connectDB call of the history. *)
Definition sessions_from (history : list api_call) (w : World) : Prop :=
  ∀ session_id c,
    db_connections w !! session_id = Some c →
    session_id_of c = session_id ∧ ∃ net, ConnectDB net c ∈ history.

(** * Properties *)

(** ** The monad and read-only actions *)

Lemma with_log_same w : with_log w (net_log w) = w.
Proof. by destruct w. Qed.

Lemma with_log_with_log w l1 l2 : with_log (with_log w l1) l2 = with_log w l2.
Proof. done. Qed.

Lemma read_only_ret {A} (a : A) : read_only (ret a).
Proof.
  intros w. exists []. split; [constructor|].
  cbn. by rewrite app_nil_r, with_log_same.
Qed.

Lemma read_only_raise {A} (e : py_exception) : read_only (raise (A := A) e).
Proof.
  intros w. exists []. split; [constructor|].
  cbn. by rewrite app_nil_r, with_log_same.
Qed.

Lemma read_only_bind {A B} (m : M py_exception A) (k : A → M py_exception B) :
  read_only m → (∀ a, read_only (k a)) → read_only (bind m k).
Proof.
  intros Hm Hk w. unfold bind.
  destruct (Hm w) as (r1 & Hr1 & Hw1).
  destruct (m w) as [w1 [e|a]]; cbn in *.
  - by exists r1.
  - destruct (Hk a w1) as (r2 & Hr2 & Hw2).
    exists (r1 ++ r2). split; [by apply Forall_app|].
    rewrite Hw2, Hw1. cbn. by rewrite with_log_with_log, app_assoc.
Qed.

Lemma read_only_request {A} k fault (answer : A) : read_only (request k fault answer).
Proof.
  intros w. exists [EvRequest k]. split; [by repeat constructor|].
  unfold request, bind, log_event. by destruct fault.
Qed.

Lemma read_only_for_each {A B} (xs : list A) (body : B → A → M py_exception B) :
  (∀ acc x, read_only (body acc x)) → ∀ acc, read_only (for_each xs acc body).
Proof.
  intros Hbody. induction xs as [|x xs IH]; intros acc; cbn.
  - apply read_only_ret.
  - apply read_only_bind; [apply Hbody | intros acc'; apply IH].
Qed.

Lemma fails_bind_l {A B} (m : M py_exception A) (k : A → M py_exception B) :
  fails m → fails (bind m k).
Proof.
  intros Hm w. destruct (Hm w) as [e He]. exists e.
  unfold bind. destruct (m w) as [w1 [e'|a]]; cbn in *; congruence.
Qed.

Lemma fails_bind_r {A B} (m : M py_exception A) (k : A → M py_exception B) :
  (∀ a, fails (k a)) → fails (bind m k).
Proof.
  intros Hk w. unfold bind. destruct (m w) as [w1 [e|a]]; cbn.
  - by exists e.
  - apply Hk.
Qed.

Lemma fails_request {A} k e (answer : A) : fails (request k (Some e) answer).
Proof. intros w. by exists e. Qed.

(** A loop one of whose iterations raises whatever it is given, raises. *)
Lemma fails_for_each {A B} (xs : list A) (body : B → A → M py_exception B) x :
  x ∈ xs → (∀ acc, fails (body acc x)) → ∀ acc, fails (for_each xs acc body).
Proof.
  intros Hin Hx. induction Hin as [x xs|x y xs _ IH]; intros acc; cbn.
  - by apply fails_bind_l.
  - apply fails_bind_r. intros acc'. apply IH, Hx.
Qed.

Lemma read_only_set_nested table_info schema_name tbl v :
  read_only (set_nested table_info schema_name tbl v).
Proof.
  unfold set_nested.
  destruct (Dict.get table_info schema_name) as [[| | | | |inner]|];
    first [apply read_only_ret | apply read_only_raise].
Qed.

Lemma pg_introspect_read_only srv : read_only (pg_introspect srv).
Proof.
  unfold pg_introspect.
  apply read_only_bind; [apply read_only_request|]. intros schema_names.
  apply read_only_for_each. intros table_info schema_name.
  apply read_only_bind; [apply read_only_request|]. intros table_names.
  apply read_only_for_each. intros table_info' tbl.
  apply read_only_bind; [apply read_only_request|]. intros cols.
  apply read_only_set_nested.
Qed.

Lemma mysql_introspect_read_only srv connection :
  read_only (mysql_introspect srv connection).
Proof.
  unfold mysql_introspect.
  apply read_only_bind; [apply read_only_request|]. intros table_names.
  apply read_only_for_each. intros table_info tbl.
  apply read_only_bind; [apply read_only_request|]. intros cols.
  apply read_only_ret.
Qed.

Lemma mongo_introspect_read_only srv connection :
  read_only (mongo_introspect srv connection).
Proof.
  unfold mongo_introspect.
  destruct (mongo_fault srv (GetDatabase _)); [apply read_only_raise|].
  apply read_only_bind; [apply read_only_request|]. intros _.
  apply read_only_bind; [apply read_only_request|]. intros names.
  apply read_only_for_each. intros table_info collection_name.
  apply read_only_bind; [apply read_only_request|]. intros sample_doc.
  apply read_only_ret.
Qed.

Lemma connector_run k open_fault close_fault caught prefix c intro w :
  read_only intro →
  connector_outcome k open_fault close_fault caught prefix c intro w
    (fst (connector k open_fault close_fault caught prefix
            (table_info <- intro ;; register_session c table_info) w))
    (snd (connector k open_fault close_fault caught prefix
            (table_info <- intro ;; register_session c table_info) w)).
Proof.
  intros Hro. unfold connector, log_event.
  destruct open_fault as [e|].
  - pose proof (outcome_refused k (Some e) close_fault caught prefix c intro w e eq_refl) as H.
    unfold translate in H. cbn. by destruct (caught (exn_cls e)).
  - set (w0 := with_log w (net_log w ++ [EvConnect k true])).
    destruct (Hro w0) as (reqs & Hreqs & Hw1).
    pose proof (outcome_aborted k None close_fault caught prefix c intro w reqs) as Habort.
    pose proof (outcome_stored k None close_fault caught prefix c intro w reqs) as Hstore.
    fold w0 in Habort, Hstore.
    replace (net_log w ++ EvConnect k true :: reqs ++ [EvClose k])
      with ((net_log w0 ++ reqs) ++ [EvClose k]) in Habort, Hstore
      by (subst w0; cbn; by rewrite <- !app_assoc).
    unfold bind. destruct (intro w0) as [w1 [e|table_info]]; cbn in Hw1 |- *; subst w1.
    + specialize (Habort e eq_refl Hreqs eq_refl).
      unfold after_close, translate in Habort.
      destruct close_fault, (caught (exn_cls e)); cbn; apply Habort.
    + specialize (Hstore table_info eq_refl Hreqs eq_refl).
      unfold after_close in Hstore.
      destruct close_fault; cbn; apply Hstore.
Qed.

Lemma introspect_of_read_only net c k : read_only (introspect_of net c k).
Proof.
  destruct k; cbn.
  - apply pg_introspect_read_only.
  - apply mysql_introspect_read_only.
  - apply mongo_introspect_read_only.
Qed.

Lemma connector_of_outcome net c k w :
  connector_outcome k (open_fault_of net k) (close_fault_of net k)
    (caught_of k) (prefix_of k) c (introspect_of net c k) w
    (fst (connector_of net c k w)) (snd (connector_of net c k w)).
Proof.
  pose proof (connector_run k (open_fault_of net k) (close_fault_of net k)
                (caught_of k) (prefix_of k) c (introspect_of net c k) w
                (introspect_of_read_only net c k)) as H.
  by destruct k.
Qed.

Lemma connect_database_supported net c k w :
  declared_backend c = Some k →
  connect_database net c w
  = (fst (connector_of net c k w), reraise (snd (connector_of net c k w))).
Proof.
  unfold declared_backend, connect_database. intros Hk.
  repeat case_decide; simplify_eq; cbn [connector_of];
    match goal with |- context [?f _ c w] => destruct (f _ c w) as [w1 [[st d|e]|v]] end;
    done.
Qed.

Lemma connect_database_unsupported net c w :
  declared_backend c = None →
  connect_database net c w
  = (w, inl (HTTPException 400 (unsupported_detail (dbtype c)))).
Proof.
  unfold declared_backend, connect_database. intros Hk.
  by repeat case_decide.
Qed.

Lemma reraise_translate caught prefix e :
  ∃ detail, reraise (inl (translate caught prefix e)) = inl (HTTPException 500 detail).
Proof. unfold translate. destruct (caught _); cbn; eauto. Qed.

Lemma reraise_after_close_error close_fault caught prefix e :
  ∃ detail,
    reraise (after_close close_fault (inl (translate caught prefix e)))
    = inl (HTTPException 500 detail).
Proof.
  destruct close_fault; cbn; [eauto | apply reraise_translate].
Qed.

(** ** Live connections *)

Lemma live_requests reqs n :
  requests_only reqs → fold_left live_step reqs n = n.
Proof.
  intros H. revert n.
  induction H as [|[] reqs Hx _ IH]; intros n; cbn; first [done | apply IH].
Qed.

Lemma live_connections_refused log k :
  live_connections (log ++ [EvConnect k false]) = live_connections log.
Proof. unfold live_connections. by rewrite fold_left_app. Qed.

Lemma live_connections_closed log k reqs :
  requests_only reqs →
  live_connections (log ++ EvConnect k true :: reqs ++ [EvClose k])
  = live_connections log.
Proof.
  intros H. unfold live_connections.
  rewrite fold_left_app. cbn. rewrite fold_left_app. cbn.
  by rewrite live_requests.
Qed.

Lemma connector_of_released net c k w :
  released k w (fst (connector_of net c k w)).
Proof.
  destruct (connector_of_outcome net c k w) as [e He|reqs e Ho Hr Hi|reqs ti Ho Hr Hi];
    cbn; split.
  - eexists; split; [done|]. by left.
  - apply live_connections_refused.
  - eexists; split; [done|]. right. by exists reqs.
  - by apply live_connections_closed.
  - eexists; split; [done|]. right. by exists reqs.
  - by apply live_connections_closed.
Qed.

(** * The claims *)

(** ** Steps that raise make introspection raise *)

Lemma fails_bind_request {A B} k fault (answer : A) (cont : A → M py_exception B) :
  fails (cont answer) → fails (bind (request k fault answer) cont).
Proof.
  intros Hc w. unfold request, bind, log_event. destruct fault as [e|]; cbn.
  - by exists e.
  - apply Hc.
Qed.

Lemma pg_introspect_fails srv op :
  op ∈ pg_steps srv → op ≠ SqlConnect → is_Some (sql_fault srv op) →
  fails (pg_introspect srv).
Proof.
  unfold pg_steps. intros Hin Hne [e He].
  apply elem_of_cons in Hin as [->|Hin]; [done|].
  apply elem_of_cons in Hin as [->|Hin].
  { unfold pg_introspect. rewrite He. apply fails_bind_l, fails_request. }
  apply list_elem_of_bind in Hin as (s & Hop & Hs).
  unfold pg_introspect. apply fails_bind_request.
  apply (fails_for_each _ _ s Hs). intros acc.
  apply elem_of_cons in Hop as [->|Hop].
  { rewrite He. apply fails_bind_l, fails_request. }
  apply list_elem_of_fmap in Hop as (t & -> & Ht).
  apply fails_bind_request.
  apply (fails_for_each _ _ t Ht). intros acc'.
  rewrite He. apply fails_bind_l, fails_request.
Qed.

Lemma mysql_introspect_fails srv c op :
  op ∈ mysql_steps srv c → op ≠ SqlConnect → is_Some (sql_fault srv op) →
  fails (mysql_introspect srv c).
Proof.
  unfold mysql_steps. intros Hin Hne [e He].
  apply elem_of_cons in Hin as [->|Hin]; [done|].
  apply elem_of_cons in Hin as [->|Hin].
  { unfold mysql_introspect. rewrite He. apply fails_bind_l, fails_request. }
  apply list_elem_of_fmap in Hin as (t & -> & Ht).
  unfold mysql_introspect. apply fails_bind_request.
  apply (fails_for_each _ _ t Ht). intros acc.
  rewrite He. apply fails_bind_l, fails_request.
Qed.

Lemma mongo_introspect_fails srv c op :
  op ∈ mongo_steps srv c → op ≠ NewClient → is_Some (mongo_fault srv op) →
  fails (mongo_introspect srv c).
Proof.
  unfold mongo_steps. intros Hin Hne [e He].
  apply elem_of_cons in Hin as [->|Hin]; [done|].
  unfold mongo_introspect.
  apply elem_of_cons in Hin as [->|Hin].
  { rewrite He. intros w. by exists e. }
  destruct (mongo_fault srv (GetDatabase (schema c))) as [e'|].
  { intros w. by exists e'. }
  apply elem_of_cons in Hin as [->|Hin].
  { rewrite He. apply fails_bind_l, fails_request. }
  apply fails_bind_request.
  apply elem_of_cons in Hin as [->|Hin].
  { rewrite He. apply fails_bind_l, fails_request. }
  apply list_elem_of_fmap in Hin as (t & -> & Ht).
  apply fails_bind_request.
  apply (fails_for_each _ _ t Ht). intros acc.
  rewrite He. apply fails_bind_l, fails_request.
Qed.

(** A backend error is a refused connection or a failing introspection. *)
Lemma backend_error_cases net c k :
  backend_error net c k →
  is_Some (open_fault_of net k) ∨ fails (introspect_of net c k).
Proof.
  destruct k; cbn; intros (op & Hin & Hf).
  - destruct (decide (op = SqlConnect)) as [->|Hne]; [by left|right].
    by apply (pg_introspect_fails _ op).
  - destruct (decide (op = SqlConnect)) as [->|Hne]; [by left|right].
    by apply (mysql_introspect_fails _ _ op).
  - destruct (decide (op = NewClient)) as [->|Hne]; [by left|right].
    by apply (mongo_introspect_fails _ _ op).
Qed.

(** ** What a connectDB call does to the registries *)

Lemma reraise_translate_not_inr caught prefix e v :
  reraise (inl (translate caught prefix e)) ≠ inr v.
Proof. unfold translate. by destruct (caught _). Qed.

Lemma reraise_after_close_inr close_fault r v :
  reraise (after_close close_fault r) = inr v → close_fault = None ∧ r = inr v.
Proof.
  destruct close_fault; cbn; [done|].
  destruct r as [[]|]; cbn; by intros [= ->].
Qed.

Lemma connect_database_success net c w w' v :
  connect_database net c w = (w', inr v) →
  ∃ table_info,
    v = connect_response (session_id_of c) table_info
    ∧ db_connections w' = <[session_id_of c := c]> (db_connections w)
    ∧ session_schemas w' = <[session_id_of c := PyDict table_info]> (session_schemas w).
Proof.
  destruct (declared_backend c) as [k|] eqn:Hk.
  - rewrite (connect_database_supported _ _ k) by done. intros [= Hw Hr].
    destruct (connector_of_outcome net c k w)
      as [e He|reqs e Ho Hreqs Hi|reqs ti Ho Hreqs Hi].
    + by apply reraise_translate_not_inr in Hr.
    + apply reraise_after_close_inr in Hr as [_ Hr].
      unfold translate in Hr. by destruct (caught_of _ _).
    + apply reraise_after_close_inr in Hr as [_ [= <-]].
      subst w'. by exists ti.
  - by rewrite connect_database_unsupported.
Qed.

(** A call either leaves both registries alone or writes both under the
    derived session id. *)
Lemma connect_database_registry net c w :
  (db_connections (fst (connect_database net c w)) = db_connections w
   ∧ session_schemas (fst (connect_database net c w)) = session_schemas w)
  ∨ (∃ table_info,
       db_connections (fst (connect_database net c w))
       = <[session_id_of c := c]> (db_connections w)
       ∧ session_schemas (fst (connect_database net c w))
         = <[session_id_of c := PyDict table_info]> (session_schemas w)).
Proof.
  destruct (declared_backend c) as [k|] eqn:Hk.
  - rewrite (connect_database_supported _ _ k) by done. cbn [fst].
    destruct (connector_of_outcome net c k w)
      as [e He|reqs e Ho Hreqs Hi|reqs ti Ho Hreqs Hi]; cbn; eauto.
  - rewrite connect_database_unsupported by done. by left.
Qed.

(** The dispatcher lets nothing but [HTTPException] out, and the status of
    the response is 200, 400 or 500. *)
Lemma connect_database_status net c w :
  response_status (snd (connect_database net c w)) ∈ [200; 400; 500].
Proof.
  destruct (declared_backend c) as [k|] eqn:Hk.
  - rewrite (connect_database_supported _ _ k) by done. cbn [snd].
    destruct (connector_of_outcome net c k w)
      as [e He|reqs e Ho Hreqs Hi|reqs ti Ho Hreqs Hi].
    + destruct (reraise_translate (caught_of k) (prefix_of k) e) as [d ->].
      cbn. set_solver.
    + destruct (reraise_after_close_error (close_fault_of net k)
                  (caught_of k) (prefix_of k) e) as [d ->].
      cbn. set_solver.
    + destruct (close_fault_of net k); cbn; set_solver.
  - rewrite connect_database_unsupported by done. cbn. set_solver.
Qed.

(** ** Worked examples *)

Example normalize_dbtype : py_strip (py_lower "  PostgreSQL ") = "postgresql".
Proof. reflexivity. Qed.

Example session_id_example : session_id_of postgresql_example = "localhost:5432:mydatabase".
Proof. vm_compute. reflexivity. Qed.

(** The PostgreSQL connector nests the tables under their schema, leaves the
    two catalog schemas out, and lists the columns by ordinal position. *)
Example connect_postgresql_example :
  snd (connect_database example_net postgresql_example initial_world)
  = inr (connect_response "localhost:5432:mydatabase"
           [ ("public",
               PyDict
                 [ ("users",
                     PyList
                       [ column_record "id" "integer" "NO"
                           (Some "nextval('users_id_seq'::regclass)") None;
                         column_record "username" "character varying" "NO" None (Some 50);
                         column_record "email" "character varying" "YES" None (Some 100)
                       ]) ]) ]).
Proof. vm_compute. reflexivity. Qed.

Example connect_postgresql_example_log :
  net_log (fst (connect_database example_net postgresql_example initial_world))
  = [ EvConnect Postgres true; EvRequest Postgres; EvRequest Postgres;
      EvRequest Postgres; EvClose Postgres ].
Proof. vm_compute. reflexivity. Qed.

Example connect_refused_example :
  connect_database unreachable_net mysql_example initial_world
  = (with_log initial_world [EvConnect MySQL false],
     inl (HTTPException 500 "Database connection failed: Connection refused")).
Proof. vm_compute. reflexivity. Qed.

(** When [close] raises in the [finally] block, after the session was
    stored, the call answers 500 and the session stays registered. *)
Example connect_close_raises_example :
  let net := {| pg_server := close_raises_server; mysql_server := users_server;
                mongo_server := people_server |} in
  snd (connect_database net postgresql_example initial_world)
  = inl (HTTPException 500 "Database connection failed: connection was closed")
  ∧ db_connections (fst (connect_database net postgresql_example initial_world))
      !! "localhost:5432:mydatabase" = Some postgresql_example.
Proof. split; vm_compute; reflexivity. Qed.

(** ** C2: unsupported database types *)

(** C2. A connectDB request whose [dbtype], lowercased and trimmed, is none
    of postgresql, mysql, mongodb fails with HTTP 400; the detail names the
    type as submitted and lists the supported ones; the world is the one
    before the call: no connection was attempted and both registries are
    unchanged, whatever the servers would have answered. *)
Theorem connectDB_unsupported_dbtype (net : Network) (connection : DatabaseConnection)
    (w : World) :
  py_strip (py_lower (dbtype connection)) ≠ "postgresql" →
  py_strip (py_lower (dbtype connection)) ≠ "mysql" →
  py_strip (py_lower (dbtype connection)) ≠ "mongodb" →
  connect_database net connection w
  = (w, inl (HTTPException 400
               ("Unsupported database type: '" +:+ dbtype connection
                  +:+ "'. Supported types are: postgresql, mysql, mongodb"))).
Proof.
  intros Hpg Hmy Hmg. apply connect_database_unsupported.
  unfold declared_backend. by repeat case_decide.
Qed.

Lemma connectDB_unsupported_dbtype_witness :
  connect_database example_net oracle_request initial_world
  = (initial_world,
     inl (HTTPException 400
            "Unsupported database type: 'oracle'. Supported types are: postgresql, mysql, mongodb")).
Proof.
  apply (connectDB_unsupported_dbtype example_net oracle_request initial_world);
    vm_compute; discriminate.
Defined.

(** ** C7: all or nothing *)

(** C7. On a supported [dbtype], when connecting, the liveness check, the
    enumeration of objects or the retrieval of columns raises, the call
    fails with HTTP 500 and both registries are as before the call. *)
Theorem connectDB_backend_error_all_or_nothing (net : Network)
    (connection : DatabaseConnection) (k : dbkind) (w : World) :
  declared_backend connection = Some k →
  backend_error net connection k →
  (∃ detail, snd (connect_database net connection w) = inl (HTTPException 500 detail))
  ∧ db_connections (fst (connect_database net connection w)) = db_connections w
  ∧ session_schemas (fst (connect_database net connection w)) = session_schemas w.
Proof.
  intros Hk Herr. rewrite (connect_database_supported _ _ k) by done. cbn [fst snd].
  apply backend_error_cases in Herr.
  destruct (connector_of_outcome net connection k w)
    as [e He|reqs e Ho Hreqs Hi|reqs ti Ho Hreqs Hi]; cbn [db_connections session_schemas with_log].
  - split; [apply reraise_translate|done].
  - split; [apply reraise_after_close_error|done].
  - exfalso. destruct Herr as [[e He]|Hf]; [congruence|].
    destruct (Hf (with_log w (net_log w ++ [EvConnect k true]))) as [e He].
    congruence.
Qed.

Lemma connectDB_backend_error_all_or_nothing_witness :
  (∃ detail,
     snd (connect_database unreachable_net postgresql_example initial_world)
     = inl (HTTPException 500 detail))
  ∧ db_connections (fst (connect_database unreachable_net postgresql_example initial_world))
    = db_connections initial_world
  ∧ session_schemas (fst (connect_database unreachable_net postgresql_example initial_world))
    = session_schemas initial_world.
Proof.
  apply (connectDB_backend_error_all_or_nothing
           unreachable_net postgresql_example Postgres initial_world).
  - vm_compute. reflexivity.
  - exists SqlConnect. split.
    + vm_compute. left.
    + vm_compute. eexists. reflexivity.
Defined.

(** ** C8: connections do not outlive the call *)

(** C8. On every way out of each of the three connectors, either no
    connection was opened, or the single connection opened was closed as the
    last operation before the connector returned or raised; the number of
    open connections after the call is the number before it. *)
Theorem connectors_release_connection (pg my : SqlServer) (mg : MongoServer)
    (connection : DatabaseConnection) (w : World) :
  released Postgres w (fst (connect_postgresql pg connection w))
  ∧ released MySQL w (fst (connect_mysql my connection w))
  ∧ released Mongo w (fst (connect_mongodb mg connection w)).
Proof.
  pose (net := {| pg_server := pg; mysql_server := my; mongo_server := mg |}).
  split; [|split].
  - apply (connector_of_released net connection Postgres w).
  - apply (connector_of_released net connection MySQL w).
  - apply (connector_of_released net connection Mongo w).
Qed.

(** ** C1: the derived session id *)

(** C1. A successful connectDB call returns the session id
    [host:port:schema] of its request and stores the request and the schema
    under that id; a later successful call with the same host, port and
    schema (whatever its credentials, type or servers) returns the same id,
    and the request and schema it stores replace those of the first. *)
Theorem connectDB_session_id (net : Network) (connection : DatabaseConnection)
    (w w' : World) (v : pyval) :
  connect_database net connection w = (w', inr v) →
  let sid := host connection +:+ ":" +:+ str_int (port connection)
               +:+ ":" +:+ schema connection in
  ∃ table_info,
    v = PyDict [ ("status", PyStr "success"); ("session_id", PyStr sid);
                 ("schema_info", PyDict table_info) ]
    ∧ db_connections w' !! sid = Some connection
    ∧ session_schemas w' !! sid = Some (PyDict table_info)
    ∧ ∀ net2 connection2 w'' v2,
        host connection2 = host connection →
        port connection2 = port connection →
        schema connection2 = schema connection →
        connect_database net2 connection2 w' = (w'', inr v2) →
        ∃ table_info2,
          v2 = PyDict [ ("status", PyStr "success"); ("session_id", PyStr sid);
                        ("schema_info", PyDict table_info2) ]
          ∧ db_connections w'' !! sid = Some connection2
          ∧ session_schemas w'' !! sid = Some (PyDict table_info2).
Proof.
  intros Hcall sid.
  apply connect_database_success in Hcall as (ti & -> & Hdb & Hsch).
  exists ti. change (session_id_of connection) with sid in *.
  split; [done|]. split; [by rewrite Hdb, lookup_insert_eq|].
  split; [by rewrite Hsch, lookup_insert_eq|].
  intros net2 c2 w'' v2 Hh Hp Hs Hcall2.
  apply connect_database_success in Hcall2 as (ti2 & -> & Hdb2 & Hsch2).
  assert (session_id_of c2 = sid) as Hsid
    by (unfold session_id_of; by rewrite Hh, Hp, Hs).
  rewrite Hsid in *. exists ti2.
  split; [done|]. split; [by rewrite Hdb2, lookup_insert_eq|].
  by rewrite Hsch2, lookup_insert_eq.
Qed.

Lemma connectDB_session_id_witness :
  ∃ table_info,
    returned (snd (connect_database example_net mysql_example initial_world))
    = PyDict [ ("status", PyStr "success"); ("session_id", PyStr "localhost:3306:mydb");
               ("schema_info", PyDict table_info) ]
    ∧ db_connections (fst (connect_database example_net mysql_example initial_world))
        !! "localhost:3306:mydb" = Some mysql_example.
Proof.
  destruct (connectDB_session_id example_net mysql_example initial_world
              (fst (connect_database example_net mysql_example initial_world))
              (returned (snd (connect_database example_net mysql_example initial_world))))
    as (table_info & Hv & Hdb & _).
  - vm_compute. reflexivity.
  - exists table_info. split; [exact Hv | exact Hdb].
Defined.

(** ** C4: wholesale replacement *)

(** C4. After a successful setsessionSchema the schema stored for the
    session is the submitted mapping itself, nothing of the previous schema
    is kept, other sessions and the connection registry are as before, and
    GET /session/{id}/schema answers with exactly that mapping. *)
Theorem set_session_schema_replaces (session_id : string)
    (body : list (string * pyval)) (w w' : World) (v : pyval) :
  set_session_schema session_id body w = (w', inr v) →
  session_schemas w' !! session_id = Some (PyDict body)
  ∧ (∀ other, other ≠ session_id →
       session_schemas w' !! other = session_schemas w !! other)
  ∧ db_connections w' = db_connections w
  ∧ ∃ c, db_connections w !! session_id = Some c
         ∧ get_session_schema session_id w'
           = (w', inr (PyDict [ ("session_id", PyStr session_id);
                                ("schema", PyDict body);
                                ("connection_info",
                                  PyDict [ ("dbtype", PyStr (dbtype c));
                                           ("host", PyStr (host c));
                                           ("schema", PyStr (schema c)) ]) ])).
Proof.
  unfold set_session_schema.
  destruct (db_connections w !! session_id) as [c|] eqn:Hc; [|done].
  destruct (check_schema body); [done|].
  cbn. intros [= <- <-]. cbn.
  split; [apply lookup_insert_eq|].
  split; [intros other Hne; by apply lookup_insert_ne|].
  split; [done|]. exists c. split; [done|].
  unfold get_session_schema. cbn. by rewrite Hc, lookup_insert_eq.
Qed.

Lemma set_session_schema_replaces_witness :
  session_schemas
    (fst (set_session_schema "localhost:5432:mydatabase"
            [("products", PyList [PyDict [("column_name", PyStr "id")]])]
            connected_world))
    !! "localhost:5432:mydatabase"
  = Some (PyDict [("products", PyList [PyDict [("column_name", PyStr "id")]])]).
Proof.
  refine (proj1 (set_session_schema_replaces "localhost:5432:mydatabase"
                   [("products", PyList [PyDict [("column_name", PyStr "id")]])]
                   connected_world _ _ _)).
  vm_compute. reflexivity.
Defined.

(** ** C9: deleting a session *)

Lemma set_session_schema_registry session_id body w :
  db_connections (fst (set_session_schema session_id body w)) = db_connections w
  ∧ (session_schemas (fst (set_session_schema session_id body w)) = session_schemas w
     ∨ (is_Some (db_connections w !! session_id)
        ∧ session_schemas (fst (set_session_schema session_id body w))
          = <[session_id := PyDict body]> (session_schemas w))).
Proof.
  unfold set_session_schema.
  destruct (db_connections w !! session_id) as [c|]; [|by auto].
  destruct (check_schema body); cbn; [by auto|].
  split; [done|]. right. by split; [eexists|].
Qed.

(** A backend error in steps 1 to 4 leaves both registries alone. *)
Lemma connect_database_backend_error_registry net c k w :
  declared_backend c = Some k →
  backend_error net c k →
  db_connections (fst (connect_database net c w)) = db_connections w
  ∧ session_schemas (fst (connect_database net c w)) = session_schemas w.
Proof.
  intros Hk Herr. rewrite (connect_database_supported _ _ k) by done. cbn [fst].
  apply backend_error_cases in Herr.
  destruct (connector_of_outcome net c k w)
    as [e He|reqs e Ho Hreqs Hi|reqs ti Ho Hreqs Hi]; [done..|].
  exfalso. destruct Herr as [[e He]|Hf]; [congruence|].
  destruct (Hf (with_log w (net_log w ++ [EvConnect k true]))) as [e He].
  congruence.
Qed.

(** A call that cannot register [sid] does not bring [sid] back. *)
Lemma handle_preserves_absent sid call w :
  cannot_register sid call →
  db_connections w !! sid = None →
  session_schemas w !! sid = None →
  db_connections (fst (handle call w)) !! sid = None
  ∧ session_schemas (fst (handle call w)) !! sid = None.
Proof.
  intros Hcall Hdb Hsch. destruct call as [net c|sid' body| |sid'|sid']; cbn in *.
  - destruct Hcall as [Hne|[Hnone|(k & Hk & Herr)]].
    + destruct (connect_database_registry net c w) as [[-> ->]|(ti & -> & ->)]; [done|].
      by rewrite !lookup_insert_ne.
    + by rewrite connect_database_unsupported.
    + by destruct (connect_database_backend_error_registry net c k w Hk Herr)
        as [-> ->].
  - destruct (set_session_schema_registry sid' body w) as [-> [->|[[c Hc] ->]]]; [done|].
    split; [done|]. rewrite lookup_insert_ne; [done|]. congruence.
  - done.
  - unfold get_session_schema.
    by destruct (db_connections w !! sid'), (session_schemas w !! sid').
  - unfold delete_session. destruct (db_connections w !! sid'); [|done]. cbn.
    rewrite !lookup_delete. split; by case_decide.
Qed.

Lemma run_calls_preserves_absent sid calls w :
  Forall (cannot_register sid) calls →
  db_connections w !! sid = None →
  session_schemas w !! sid = None →
  db_connections (run_calls calls w) !! sid = None
  ∧ session_schemas (run_calls calls w) !! sid = None.
Proof.
  intros Hcalls. revert w.
  induction Hcalls as [|call calls Hcall _ IH]; intros w Hdb Hsch; [done|].
  cbn. by apply IH; apply handle_preserves_absent.
Qed.

(** C9, as amended. DELETE /session/{id} answers 404 when the id is not
    registered. When it is, the call succeeds and removes the session from
    both registries; from then on GET /session/{id}/schema and DELETE
    /session/{id} answer 404, through any sequence of calls in which every
    connectDB request for that id has an unsupported type or fails in
    connecting, the liveness check, the enumeration of objects or the
    retrieval of columns. Only a connectDB request for the id whose
    introspection completes can bring the session back. *)
Theorem delete_session_removes (session_id : string) (w : World) :
  (db_connections w !! session_id = None →
   delete_session session_id w = (w, inl (HTTPException 404 "Session not found")))
  ∧ (is_Some (db_connections w !! session_id) →
     (∃ v, snd (delete_session session_id w) = inr v)
     ∧ db_connections (fst (delete_session session_id w)) !! session_id = None
     ∧ session_schemas (fst (delete_session session_id w)) !! session_id = None
     ∧ ∀ calls,
         Forall (cannot_register session_id) calls →
         snd (get_session_schema session_id
                (run_calls calls (fst (delete_session session_id w))))
         = inl (HTTPException 404 "Session not found")
         ∧ snd (delete_session session_id
                  (run_calls calls (fst (delete_session session_id w))))
           = inl (HTTPException 404 "Session not found")).
Proof.
  split.
  { intros Hc. unfold delete_session. by rewrite Hc. }
  intros [c Hc].
  assert (∃ v, delete_session session_id w
               = ({| db_connections := delete session_id (db_connections w);
                     session_schemas := delete session_id (session_schemas w);
                     net_log := net_log w |}, inr v)) as [v Hdel].
  { unfold delete_session. rewrite Hc. by eexists. }
  rewrite Hdel. cbn [fst snd db_connections session_schemas].
  split; [by eexists|].
  split; [apply lookup_delete_eq|]. split; [apply lookup_delete_eq|].
  intros calls Hcalls.
  edestruct (run_calls_preserves_absent session_id calls) as [Hdb' _];
    [exact Hcalls | | | ]; cycle 2.
  { unfold get_session_schema, delete_session. rewrite Hdb'. done. }
  all: cbn; apply lookup_delete_eq.
Qed.

Lemma delete_session_removes_witness :
  delete_session "localhost:3306:mydb" connected_world
  = (connected_world, inl (HTTPException 404 "Session not found"))
  ∧ snd (get_session_schema "localhost:5432:mydatabase"
           (run_calls [SetSessionSchema "localhost:5432:mydatabase" [];
                       ConnectDB example_net mysql_example;
                       ConnectDB unreachable_net postgresql_example]
              (fst (delete_session "localhost:5432:mydatabase" connected_world))))
    = inl (HTTPException 404 "Session not found").
Proof.
  split.
  - apply (proj1 (delete_session_removes "localhost:3306:mydb" connected_world)).
    vm_compute. reflexivity.
  - refine (proj1 (proj2 (proj2 (proj2
             (proj2 (delete_session_removes "localhost:5432:mydatabase" connected_world)
                _))) _ _)).
    + vm_compute. eexists. reflexivity.
    + constructor; [exact I|]. constructor.
      { left. vm_compute. discriminate. }
      constructor; [|constructor].
      right. right. exists Postgres. split; [vm_compute; reflexivity|].
      exists SqlConnect. split; [vm_compute; left|].
      vm_compute. eexists. reflexivity.
Defined.

(** After a delete, a connectDB request for the same id that is answered
    500 because [close] raised has registered the session again: no
    connect succeeded, and GET /session/{id}/schema answers 200. *)
Lemma deleted_session_back_after_failed_connect :
  let w0 := fst (delete_session "localhost:5432:mydatabase" connected_world) in
  snd (get_session_schema "localhost:5432:mydatabase" w0)
  = inl (HTTPException 404 "Session not found")
  ∧ snd (connect_database close_raises_net postgresql_example w0)
    = inl (HTTPException 500 "Database connection failed: connection was closed")
  ∧ ∃ v, snd (get_session_schema "localhost:5432:mydatabase"
                (fst (connect_database close_raises_net postgresql_example w0)))
         = inr v.
Proof.
  split; [vm_compute; reflexivity|]. split; [vm_compute; reflexivity|].
  eexists. vm_compute. reflexivity.
Qed.

(** ** C10: every registered session has a schema *)

Lemma handle_preserves_dom call w :
  dom (db_connections w) = dom (session_schemas w) →
  dom (db_connections (fst (handle call w)))
  = dom (session_schemas (fst (handle call w))).
Proof.
  intros Hdom. destruct call as [net c|sid body| |sid|sid]; cbn.
  - destruct (connect_database_registry net c w) as [[-> ->]|(ti & -> & ->)]; [done|].
    rewrite !dom_insert_L. by rewrite Hdom.
  - destruct (set_session_schema_registry sid body w) as [-> [->|[Hc ->]]]; [done|].
    rewrite dom_insert_L, <- Hdom. apply elem_of_dom in Hc.
    symmetry. apply subseteq_union_1_L. by apply singleton_subseteq_l.
  - done.
  - unfold get_session_schema.
    by destruct (db_connections w !! sid), (session_schemas w !! sid).
  - unfold delete_session. destruct (db_connections w !! sid); [|done]. cbn.
    rewrite !dom_delete_L. by rewrite Hdom.
Qed.

Lemma run_calls_dom calls w :
  dom (db_connections w) = dom (session_schemas w) →
  dom (db_connections (run_calls calls w)) = dom (session_schemas (run_calls calls w)).
Proof.
  revert w. induction calls as [|call calls IH]; intros w Hdom; [done|].
  cbn. by apply IH, handle_preserves_dom.
Qed.

(** C10. In every world reached from the empty one by any sequence of API
    calls, whatever each call answered, the two registries have the same
    keys. So every entry of [session_details] in GET /sessions has
    [has_schema_defined] true, and GET /session/{id}/schema never answers
    "Session schema not defined". *)
Theorem registry_key_sets_agree (calls : list api_call) :
  let w := run_calls calls initial_world in
  dom (db_connections w) = dom (session_schemas w)
  ∧ (∃ ids details,
       get_active_sessions w
       = (w, inr (PyDict [ ("active_sessions", PyList ids);
                           ("session_details", PyList details) ]))
       ∧ Forall (λ d, ∃ fields, d = PyDict fields
                      ∧ Dict.get fields "has_schema_defined" = Some (PyBool true))
           details)
  ∧ (∀ session_id,
       snd (get_session_schema session_id w)
       ≠ inl (HTTPException 404 "Session schema not defined")).
Proof.
  intros w.
  assert (dom (db_connections w) = dom (session_schemas w)) as Hdom
    by (apply run_calls_dom; done).
  assert (∀ sid, is_Some (db_connections w !! sid) → is_Some (session_schemas w !! sid))
    as Hsome.
  { intros sid. rewrite <- !elem_of_dom. by rewrite Hdom. }
  split; [done|]. split.
  - eexists _, _. split; [reflexivity|].
    apply Forall_fmap, Forall_forall. intros [sid details] Hin.
    apply elem_of_map_to_list in Hin.
    eexists. split; [reflexivity|]. cbn.
    rewrite bool_decide_eq_true_2; [done|]. apply Hsome. by eexists.
  - intros sid. unfold get_session_schema.
    destruct (db_connections w !! sid) as [c|] eqn:Hc; [|done].
    destruct (Hsome sid) as [sch ->]; [by eexists|]. done.
Qed.

(** ** C3: validation of a schema override *)

Lemma dict_get_keys {V} (d : list (string * V)) k :
  is_Some (Dict.get d k) ↔ k ∈ Dict.keys d.
Proof.
  induction d as [|[k' v] d IH]; cbn.
  - split; [by intros [? ?] | by intros ?%elem_of_nil].
  - rewrite elem_of_cons. case_decide; subst.
    + split; [by left | by eexists].
    + rewrite IH. split; [by right | by intros [->|]].
Qed.

Lemma dict_mem_keys {V} (d : list (string * V)) k :
  Dict.mem k d = true ↔ k ∈ Dict.keys d.
Proof.
  rewrite <- dict_get_keys. unfold Dict.mem.
  destruct (Dict.get d k); split; done.
Qed.

Lemma check_columns_valid tbl idx columns :
  check_columns tbl idx columns = None ↔ Forall valid_column columns.
Proof.
  revert idx. induction columns as [|column rest IH]; intros idx; cbn.
  - split; [constructor | done].
  - rewrite Forall_cons. destruct column as [| | | | |d];
      try (split; [done | by intros [(d' & ? & _) _]]).
    destruct (Dict.mem "column_name" d) eqn:Hmem.
    + rewrite IH. apply dict_mem_keys in Hmem.
      split; [intros ?; split; [by exists d | done] | by intros [_ ?]].
    + split; [done|]. intros [(d' & [= <-] & Hin) _].
      apply dict_mem_keys in Hin. congruence.
Qed.



Lemma check_schema_valid body :
  check_schema body = None ↔ valid_schema body.
Proof.
  unfold valid_schema. induction body as [|[tbl columns] rest IH]; cbn.
  - split; [constructor | done].
  - rewrite Forall_cons. cbn. destruct columns as [| | | |l|];
      try (split; [done | by intros [(l' & ? & _) _]]).
    destruct (check_columns tbl 0 l) as [e|] eqn:Hl.
    + split; [done|]. intros [(l' & [= <-] & Hvalid) _].
      apply check_columns_valid with (tbl := tbl) (idx := 0%nat) in Hvalid. congruence.
    + apply check_columns_valid in Hl. rewrite IH.
      split; [intros ?; split; [by exists l | done] | by intros [_ ?]].
Qed.





(** ** C5: the document-store schema *)

Lemma dict_get_set {V} (d : list (string * V)) k v k' :
  Dict.get (Dict.set d k v) k' = if decide (k = k') then Some v else Dict.get d k'.
Proof.
  induction d as [|[k0 v0] d IH]; cbn.
  - by repeat case_decide.
  - destruct (decide (k0 = k)) as [->|Hne]; cbn.
    + by repeat case_decide.
    + rewrite IH. repeat case_decide; congruence.
Qed.

Lemma dict_keys_set {V} (d : list (string * V)) k v k' :
  k' ∈ Dict.keys (Dict.set d k v) ↔ k' = k ∨ k' ∈ Dict.keys d.
Proof.
  rewrite <- !dict_get_keys, dict_get_set.
  case_decide as Hk.
  - split; [by left | by eexists].
  - split; [by right | by intros [->|]].
Qed.

Lemma dict_keys_set_NoDup {V} (d : list (string * V)) k v :
  NoDup (Dict.keys d) → NoDup (Dict.keys (Dict.set d k v)).
Proof.
  induction d as [|[k0 v0] d IH]; cbn.
  - intros _. apply NoDup_singleton.
  - rewrite NoDup_cons. intros [Hnotin Hnodup].
    destruct (decide (k0 = k)) as [->|Hne]; cbn.
    + by apply NoDup_cons.
    + apply NoDup_cons. split; [|by apply IH].
      change (k0 ∉ Dict.keys (Dict.set d k v)). rewrite dict_keys_set. by intros [|].
Qed.

Lemma filled_get {A} (entry : string → A) xs d k :
  Dict.get (filled entry xs d) k
  = if decide (k ∈ xs) then Some (entry k) else Dict.get d k.
Proof.
  revert d. induction xs as [|x xs IH]; intros d; cbn.
  - case_decide as H; [by apply elem_of_nil in H | done].
  - unfold filled in IH. rewrite IH, dict_get_set.
    destruct (decide (k ∈ xs)) as [Hin|Hnotin].
    + rewrite decide_True; [done | by right].
    + destruct (decide (x = k)) as [->|Hne].
      * rewrite decide_True; [done | by left].
      * rewrite decide_False; [done|]. by intros [->|]%elem_of_cons.
Qed.

Lemma filled_keys {A} (entry : string → A) xs d k :
  k ∈ Dict.keys (filled entry xs d) ↔ k ∈ xs ∨ k ∈ Dict.keys d.
Proof.
  rewrite <- !dict_get_keys, filled_get.
  case_decide as Hk.
  - split; [by left | by eexists].
  - split; [by right | by intros [|]].
Qed.

Lemma filled_NoDup {A} (entry : string → A) xs d :
  NoDup (Dict.keys d) → NoDup (Dict.keys (filled entry xs d)).
Proof.
  revert d. induction xs as [|x xs IH]; intros d Hd; [done|].
  cbn. by apply IH, dict_keys_set_NoDup.
Qed.

(** A loop that makes one request per item and files the answer under the
    item's name returns, when it returns, the dictionary of the answers. *)
Lemma for_each_request_set {A} k (fault : string → option py_exception)
    (answer : string → A) (entry : A → pyval) xs acc w w' res :
  for_each xs acc (λ acc x,
    v <- request k (fault x) (answer x) ;; ret (Dict.set acc x (entry v))) w
  = (w', inr res) →
  res = filled (λ x, entry (answer x)) xs acc.
Proof.
  revert acc w. induction xs as [|x xs IH]; intros acc w; cbn.
  - by intros [= _ <-].
  - unfold bind at 1. unfold bind at 1, request, log_event.
    destruct (fault x); cbn; [done|]. apply IH.
Qed.

Lemma mongo_introspect_result srv c w w' table_info :
  mongo_introspect srv c w = (w', inr table_info) →
  table_info
  = filled (λ coll, collection_columns (first_document srv (schema c) coll))
      (collection_names_of srv (schema c)) [].
Proof.
  unfold mongo_introspect.
  destruct (mongo_fault srv (GetDatabase (schema c))); [done|].
  unfold bind at 1. unfold request at 1, bind at 1, log_event.
  destruct (mongo_fault srv ServerInfo); cbn; [done|].
  unfold bind at 1. unfold request at 1, bind at 1, log_event.
  destruct (mongo_fault srv ListCollectionNames); cbn; [done|].
  apply (for_each_request_set Mongo (λ x, mongo_fault srv (FindOne x))
           (first_document srv (schema c)) collection_columns).
Qed.

(** C5. The schema a successful MongoDB connect returns and stores has
    exactly one entry per collection of the database. The entry of a
    collection with no sample document is the empty list; the entry of a
    collection with a sample document has one record per field of the
    document, in the document's order, with the field name, the type name of
    its value, [is_nullable] "YES", no default value and no maximum
    length. *)
Theorem mongodb_schema_entries (srv : MongoServer) (connection : DatabaseConnection)
    (w w' : World) (v : pyval) :
  connect_mongodb srv connection w = (w', inr v) →
  ∃ table_info,
    v = connect_response (session_id_of connection) table_info
    ∧ session_schemas w' !! session_id_of connection = Some (PyDict table_info)
    ∧ NoDup (Dict.keys table_info)
    ∧ (∀ coll, coll ∈ Dict.keys table_info
               ↔ coll ∈ collection_names_of srv (schema connection))
    ∧ (∀ coll, coll ∈ collection_names_of srv (schema connection) →
         Dict.get table_info coll
         = Some match first_document srv (schema connection) coll with
                | None => PyList []
                | Some doc =>
                    PyList ((λ field,
                               PyDict [ ("column_name", PyStr (fst field));
                                        ("data_type", PyStr (type_name (snd field)));
                                        ("is_nullable", PyStr "YES");
                                        ("default_value", PyNone);
                                        ("max_length", PyNone) ]) <$> doc)
                end).
Proof.
  intros Hcall.
  pose proof (connector_run Mongo (mongo_fault srv NewClient) (mongo_fault srv MongoClose)
                (λ _, true) "MongoDB connection error: " connection
                (mongo_introspect srv connection) w
                (mongo_introspect_read_only srv connection)) as Hout.
  change (connector Mongo _ _ _ _ _) with (connect_mongodb srv connection) in Hout.
  rewrite Hcall in Hout. cbn [fst snd] in Hout.
  inversion Hout as [e He|reqs e Ho Hreqs Hi Hw Hr|reqs ti Ho Hreqs Hi Hw Hr].
  { unfold after_close in Hr. by destruct (mongo_fault srv MongoClose). }
  unfold after_close in Hr. destruct (mongo_fault srv MongoClose); [done|].
  injection Hr as <-. exists ti. split; [done|].
  split; [cbn; apply lookup_insert_eq|].
  destruct (mongo_introspect srv connection
              (with_log w (net_log w ++ [EvConnect Mongo true]))) as [w0 r] eqn:Hrun.
  cbn in Hi. subst r. apply mongo_introspect_result in Hrun. subst ti.
  split; [apply filled_NoDup, NoDup_nil_2|].
  split.
  - intros coll. rewrite filled_keys. cbn. split; [|by left].
    by intros [|?%elem_of_nil].
  - intros coll Hcoll. rewrite filled_get, decide_True by done. f_equal.
    unfold collection_columns.
    by destruct (first_document srv (schema connection) coll) as [[|field doc]|].
Qed.

Lemma mongodb_schema_entries_witness :
  ∃ table_info,
    returned (snd (connect_mongodb people_server mongodb_example initial_world))
    = connect_response "localhost:27017:mydb" table_info
    ∧ Dict.get table_info "empty" = Some (PyList [])
    ∧ Dict.get table_info "people"
      = Some (PyList
                [ PyDict [ ("column_name", PyStr "_id"); ("data_type", PyStr "ObjectId");
                           ("is_nullable", PyStr "YES"); ("default_value", PyNone);
                           ("max_length", PyNone) ];
                  PyDict [ ("column_name", PyStr "a"); ("data_type", PyStr "int");
                           ("is_nullable", PyStr "YES"); ("default_value", PyNone);
                           ("max_length", PyNone) ];
                  PyDict [ ("column_name", PyStr "b"); ("data_type", PyStr "str");
                           ("is_nullable", PyStr "YES"); ("default_value", PyNone);
                           ("max_length", PyNone) ] ]).
Proof.
  destruct (mongodb_schema_entries people_server mongodb_example initial_world
              (fst (connect_mongodb people_server mongodb_example initial_world))
              (returned (snd (connect_mongodb people_server mongodb_example initial_world))))
    as (table_info & Hv & _ & _ & _ & Hget).
  - vm_compute. reflexivity.
  - exists table_info. split; [exact Hv|]. split.
    + apply (Hget "empty"). cbn. right. left.
    + apply (Hget "people"). cbn. left.
Defined.

(** ** C6: the default value of a relational column *)

#[local] Instance by_ordinal_total : Total by_ordinal.
Proof. intros r1 r2. unfold by_ordinal. lia. Qed.

(** The columns query lists the rows of the table, by ordinal position. *)
Lemma columns_query_sorted srv schema_name tbl :
  Sorted by_ordinal (columns_query srv schema_name tbl).
Proof. apply (Sorted_merge_sort by_ordinal). Qed.

Lemma columns_query_rows srv schema_name tbl :
  columns_query srv schema_name tbl
  ≡ₚ filter (λ r, col_table_schema r = schema_name ∧ col_table_name r = tbl) (columns srv).
Proof. apply merge_sort_Permutation. Qed.

(** A reported default that is not the empty string is passed on. *)
Lemma sql_column_default_reported col s :
  column_default col = Some s → s ≠ "" →
  sql_column col
  = column_record (column_name col) (data_type col) (is_nullable col)
      (Some s) (character_maximum_length col).
Proof.
  intros Hd Hs. unfold sql_column, str_if_truthy. rewrite Hd. by rewrite decide_False.
Qed.

(** No reported default gives [None]. *)
Lemma sql_column_default_absent col :
  column_default col = None →
  sql_column col
  = column_record (column_name col) (data_type col) (is_nullable col)
      None (character_maximum_length col).
Proof. intros Hd. unfold sql_column, str_if_truthy. by rewrite Hd. Qed.

(** C6 fails on the code where the reported default is the empty string:
    the MySQL connector reads the [users] table of [mydb], whose column
    [username] has the default [''], and reports [default_value] as [None],
    as for the columns that have no default. *)
Theorem mysql_empty_default_reported_absent :
  ColumnsRow "mydb" "users" "username" "varchar" "NO" (Some "") (Some 50) 2
    ∈ columns users_server
  ∧ snd (connect_database example_net mysql_example initial_world)
    = inr (PyDict
             [ ("status", PyStr "success");
               ("session_id", PyStr "localhost:3306:mydb");
               ("schema_info",
                 PyDict
                   [ ("users",
                       PyList
                         [ PyDict [ ("column_name", PyStr "id");
                                    ("data_type", PyStr "int");
                                    ("is_nullable", PyStr "NO");
                                    ("default_value", PyNone);
                                    ("max_length", PyNone) ];
                           PyDict [ ("column_name", PyStr "username");
                                    ("data_type", PyStr "varchar");
                                    ("is_nullable", PyStr "NO");
                                    ("default_value", PyNone);
                                    ("max_length", PyInt 50) ];
                           PyDict [ ("column_name", PyStr "email");
                                    ("data_type", PyStr "varchar");
                                    ("is_nullable", PyStr "YES");
                                    ("default_value", PyNone);
                                    ("max_length", PyInt 100) ] ]) ]) ]).
Proof.
  split; [|vm_compute; reflexivity].
  apply list_elem_of_In. cbn. tauto.
Qed.

(** * Further properties of the handlers *)

(** ** Isolation and round trips *)

(** X1. A connectDB call, whatever its outcome, changes no session other
    than the one its request derives. *)
Theorem connectDB_other_sessions_untouched (net : Network) (connection : DatabaseConnection)
    (w : World) (other : string) :
  other ≠ session_id_of connection →
  db_connections (fst (connect_database net connection w)) !! other
  = db_connections w !! other
  ∧ session_schemas (fst (connect_database net connection w)) !! other
    = session_schemas w !! other.
Proof.
  intros Hne.
  destruct (connect_database_registry net connection w) as [[-> ->]|(ti & -> & ->)];
    [done|].
  by rewrite !lookup_insert_ne.
Qed.

Lemma connectDB_other_sessions_untouched_witness :
  db_connections (fst (connect_database example_net mysql_example connected_world))
    !! "localhost:5432:mydatabase"
  = db_connections connected_world !! "localhost:5432:mydatabase"
  ∧ session_schemas (fst (connect_database example_net mysql_example connected_world))
      !! "localhost:5432:mydatabase"
    = session_schemas connected_world !! "localhost:5432:mydatabase".
Proof.
  apply (connectDB_other_sessions_untouched example_net mysql_example connected_world).
  vm_compute. discriminate.
Defined.

(** X2. After a successful connectDB, GET /session/{id}/schema for the
    returned id answers with the schema the connect returned, and with the
    [dbtype] as it was submitted (not normalised), the host and the schema
    name. *)
Theorem connectDB_then_get_session_schema (net : Network)
    (connection : DatabaseConnection) (w w' : World) (v : pyval) :
  connect_database net connection w = (w', inr v) →
  ∃ table_info,
    v = connect_response (session_id_of connection) table_info
    ∧ get_session_schema (session_id_of connection) w'
      = (w', inr (PyDict [ ("session_id", PyStr (session_id_of connection));
                           ("schema", PyDict table_info);
                           ("connection_info",
                             PyDict [ ("dbtype", PyStr (dbtype connection));
                                      ("host", PyStr (host connection));
                                      ("schema", PyStr (schema connection)) ]) ])).
Proof.
  intros (ti & -> & Hdb & Hsch)%connect_database_success.
  exists ti. split; [done|].
  unfold get_session_schema. by rewrite Hdb, Hsch, !lookup_insert_eq.
Qed.

Lemma connectDB_then_get_session_schema_witness :
  ∃ table_info,
    returned (snd (connect_database example_net
                     padded_mysql_request initial_world))
    = connect_response "db:3306:mydb" table_info
    ∧ snd (get_session_schema "db:3306:mydb"
             (fst (connect_database example_net
                     padded_mysql_request initial_world)))
      = inr (PyDict [ ("session_id", PyStr "db:3306:mydb");
                      ("schema", PyDict table_info);
                      ("connection_info",
                        PyDict [ ("dbtype", PyStr " MySQL ");
                                 ("host", PyStr "db");
                                 ("schema", PyStr "mydb") ]) ]).
Proof.
  destruct (connectDB_then_get_session_schema example_net
              padded_mysql_request initial_world
              (fst (connect_database example_net
                      padded_mysql_request initial_world))
              (returned (snd (connect_database example_net
                      padded_mysql_request initial_world))))
    as (table_info & Hv & Hget).
  - vm_compute. reflexivity.
  - exists table_info. split; [exact Hv | exact (f_equal snd Hget)].
Defined.

(** X3. Connecting a session id that was not registered and then deleting
    it gives back the registries as they were. *)
Theorem connectDB_then_delete_restores (net : Network) (connection : DatabaseConnection)
    (w w' : World) (v : pyval) :
  db_connections w !! session_id_of connection = None →
  session_schemas w !! session_id_of connection = None →
  connect_database net connection w = (w', inr v) →
  (∃ v', snd (delete_session (session_id_of connection) w') = inr v')
  ∧ db_connections (fst (delete_session (session_id_of connection) w'))
    = db_connections w
  ∧ session_schemas (fst (delete_session (session_id_of connection) w'))
    = session_schemas w.
Proof.
  intros Hdb0 Hsch0 (ti & -> & Hdb & Hsch)%connect_database_success.
  unfold delete_session. rewrite Hdb, lookup_insert_eq. cbn.
  split; [by eexists|].
  rewrite Hsch. split; by apply delete_insert_id.
Qed.

Lemma connectDB_then_delete_restores_witness :
  db_connections
    (fst (delete_session "localhost:3306:mydb"
            (fst (connect_database example_net mysql_example connected_world))))
  = db_connections connected_world.
Proof.
  refine (proj1 (proj2 (connectDB_then_delete_restores example_net mysql_example
                          connected_world _ _ _ _ _))).
  - vm_compute. reflexivity.
  - vm_compute. reflexivity.
  - vm_compute. reflexivity.
Defined.

(** X4. Overrides do not accumulate: after a valid override, the world is
    the one that override alone would have given, whatever override was
    submitted just before it. *)
Theorem set_session_schema_last_wins (session_id : string)
    (body1 body2 : list (string * pyval)) (w : World) :
  valid_schema body2 →
  fst (set_session_schema session_id body2
         (fst (set_session_schema session_id body1 w)))
  = fst (set_session_schema session_id body2 w).
Proof.
  intros Hvalid%check_schema_valid. unfold set_session_schema.
  destruct (db_connections w !! session_id) as [c|] eqn:Hc; cbn; [|by rewrite Hc].
  destruct (check_schema body1); cbn; rewrite Hc, Hvalid; cbn; [done|].
  by rewrite insert_insert_eq.
Qed.

Lemma set_session_schema_last_wins_witness :
  fst (set_session_schema example_set_session_schema_session_id
         example_set_session_schema_body
         (fst (set_session_schema example_set_session_schema_session_id
                 [("orders", PyList [])] connected_world)))
  = fst (set_session_schema example_set_session_schema_session_id
           example_set_session_schema_body connected_world).
Proof.
  apply (set_session_schema_last_wins example_set_session_schema_session_id
           [("orders", PyList [])] example_set_session_schema_body connected_world).
  apply check_schema_valid. vm_compute. reflexivity.
Defined.

(** ** Responses *)

Lemma respond_status r : status (respond r) = response_status r.
Proof. by destruct r as [[]|]. Qed.

(** On a supported type the call succeeds or answers 500. *)
Lemma connect_database_supported_cases net c k w :
  declared_backend c = Some k →
  (∃ v, snd (connect_database net c w) = inr v)
  ∨ (∃ detail, snd (connect_database net c w) = inl (HTTPException 500 detail)).
Proof.
  intros Hk. rewrite (connect_database_supported _ _ k) by done. cbn [snd].
  destruct (connector_of_outcome net c k w)
    as [e He|reqs e Ho Hreqs Hi|reqs ti Ho Hreqs Hi].
  - right. apply reraise_translate.
  - right. apply reraise_after_close_error.
  - destruct (close_fault_of net k); cbn; [right|left]; by eexists.
Qed.

(** Every handler raises nothing but [HTTPException]. *)
Lemma handle_raises_http call w :
  (∃ v, snd (handle call w) = inr v)
  ∨ (∃ st detail, snd (handle call w) = inl (HTTPException st detail)
                  ∧ st ∈ [400; 404; 500]).
Proof.
  destruct call as [net c|sid body| |sid|sid]; cbn.
  - destruct (declared_backend c) as [k|] eqn:Hk.
    + destruct (connect_database_supported_cases net c k w Hk) as [[v ->]|[d ->]].
      * left. by eexists.
      * right. eexists _, _. split; [done|]. set_solver.
    + rewrite connect_database_unsupported by done. right.
      eexists _, _. split; [done|]. set_solver.
  - unfold set_session_schema. destruct (db_connections w !! sid).
    + destruct (check_schema body).
      * right. eexists _, _. split; [done|]. set_solver.
      * left. by eexists.
    + right. eexists _, _. split; [done|]. set_solver.
  - left. by eexists.
  - unfold get_session_schema.
    destruct (db_connections w !! sid); [destruct (session_schemas w !! sid)|].
    + left. by eexists.
    + right. eexists _, _. split; [done|]. set_solver.
    + right. eexists _, _. split; [done|]. set_solver.
  - unfold delete_session. destruct (db_connections w !! sid).
    + left. by eexists.
    + right. eexists _, _. split; [done|]. set_solver.
Qed.

(** X5. For a request that has reached one of the five session handlers
    (past the framework's routing and body validation, which are not
    modelled), the handler returns, or raises an [HTTPException] with status
    400, 404 or 500: the response then is the one [http_exception_handler]
    builds, [{error: detail, status_code: status}]. None of these handlers
    lets another exception through to [general_exception_handler]. *)
Theorem error_envelope_uniform (call : api_call) (w : World) :
  status (respond (snd (handle call w))) ∈ [200; 400; 404; 500]
  ∧ (status (respond (snd (handle call w))) ≠ 200 →
     ∃ detail,
       snd (handle call w)
       = inl (HTTPException (status (respond (snd (handle call w)))) detail)
       ∧ content (respond (snd (handle call w)))
         = PyDict [ ("error", PyStr detail);
                    ("status_code",
                      PyInt (status (respond (snd (handle call w))))) ]).
Proof.
  destruct (handle_raises_http call w) as [[v ->]|(st & d & -> & Hst)]; cbn.
  - split; [set_solver | done].
  - split; [apply elem_of_cons; by right|]. intros _. by exists d.
Qed.

Lemma error_envelope_uniform_witness :
  ∃ detail,
    snd (handle (DeleteSession "nobody") initial_world) = inl (HTTPException 404 detail)
    ∧ content (respond (snd (handle (DeleteSession "nobody") initial_world)))
      = PyDict [ ("error", PyStr detail); ("status_code", PyInt 404) ].
Proof.
  apply (proj2 (error_envelope_uniform (DeleteSession "nobody") initial_world)).
  vm_compute. discriminate.
Defined.

(** X6. A call answered with 400 or 404 has changed nothing: both
    registries and the connection log are as before. *)
Theorem client_error_leaves_world (call : api_call) (w : World) :
  status (respond (snd (handle call w))) = 400
  ∨ status (respond (snd (handle call w))) = 404 →
  fst (handle call w) = w.
Proof.
  rewrite respond_status.
  destruct call as [net c|sid body| |sid|sid]; cbn.
  - destruct (declared_backend c) as [k|] eqn:Hk.
    + destruct (connect_database_supported_cases net c k w Hk) as [[v ->]|[d ->]];
        cbn; by intros [|].
    + by rewrite connect_database_unsupported.
  - unfold set_session_schema. destruct (db_connections w !! sid); [|done].
    destruct (check_schema body); [done|]. cbn. by intros [|].
  - done.
  - unfold get_session_schema.
    by destruct (db_connections w !! sid), (session_schemas w !! sid).
  - unfold delete_session. destruct (db_connections w !! sid); [|done].
    cbn. by intros [|].
Qed.

Lemma client_error_leaves_world_witness :
  fst (handle (SetSessionSchema "localhost:5432:mydatabase"
                 [("users", PyList [PyDict [("data_type", PyStr "integer")]])])
         connected_world)
  = connected_world.
Proof.
  apply (client_error_leaves_world
           (SetSessionSchema "localhost:5432:mydatabase"
              [("users", PyList [PyDict [("data_type", PyStr "integer")]])])
           connected_world).
  left. vm_compute. reflexivity.
Defined.

(** ** Listing and counting sessions *)

(** X7. GET /sessions lists every registered session id exactly once, and
    nothing else; the two lists of the answer have one entry per session. *)
Theorem get_active_sessions_lists_registry (w : World) :
  ∃ ids details,
    get_active_sessions w
    = (w, inr (PyDict [ ("active_sessions", PyList (PyStr <$> ids));
                        ("session_details", PyList details) ]))
    ∧ NoDup ids
    ∧ (∀ session_id, session_id ∈ ids ↔ is_Some (db_connections w !! session_id))
    ∧ length ids = size (db_connections w)
    ∧ length details = size (db_connections w).
Proof.
  exists ((map_to_list (db_connections w)).*1),
    ((λ kv, PyDict (session_detail w (fst kv) (snd kv))) <$> map_to_list (db_connections w)).
  split; [|split; [|split; [|split]]].
  - unfold get_active_sessions. by rewrite <- list_fmap_compose.
  - apply NoDup_fst_map_to_list.
  - intros sid. rewrite list_elem_of_fmap. split.
    + intros ([sid' c] & -> & Hin). apply elem_of_map_to_list in Hin. by eexists.
    + intros [c Hc]. exists (sid, c). split; [done|]. by apply elem_of_map_to_list.
  - by rewrite length_fmap, length_map_to_list.
  - by rewrite length_fmap, length_map_to_list.
Qed.

(** X8. In every world reached from the empty one by API calls, GET
    /health reports the same number for [active_sessions] and
    [configured_schemas]: the number of registered sessions. *)
Theorem health_check_counts_agree (calls : list api_call) :
  let w := run_calls calls initial_world in
  health_check w
  = (w, inr (PyDict [ ("status", PyStr "healthy");
                      ("active_sessions", PyInt (Z.of_nat (size (db_connections w))));
                      ("configured_schemas", PyInt (Z.of_nat (size (db_connections w))));
                      ("supported_databases",
                        PyList [PyStr "postgresql"; PyStr "mysql"; PyStr "mongodb"]) ])).
Proof.
  intros w. unfold health_check.
  assert (size (session_schemas w) = size (db_connections w)) as ->; [|done].
  rewrite <- !size_dom. f_equal. symmetry. by apply run_calls_dom.
Qed.

(** ** Connections over a run *)

Lemma handle_live_connections call w :
  live_connections (net_log (fst (handle call w))) = live_connections (net_log w).
Proof.
  destruct call as [net c|sid body| |sid|sid]; cbn.
  - destruct (declared_backend c) as [k|] eqn:Hk.
    + rewrite (connect_database_supported _ _ k) by done. cbn [fst].
      apply (connector_of_released net c k w).
    + by rewrite connect_database_unsupported.
  - unfold set_session_schema. destruct (db_connections w !! sid); [|done].
    by destruct (check_schema body).
  - done.
  - unfold get_session_schema.
    by destruct (db_connections w !! sid), (session_schemas w !! sid).
  - unfold delete_session. by destruct (db_connections w !! sid).
Qed.

(** X9. After any sequence of API calls from the initial world, whatever
    the servers answered, no backend connection is open. *)
Theorem no_connection_left_open (calls : list api_call) :
  live_connections (net_log (run_calls calls initial_world)) = 0%nat.
Proof.
  change 0%nat with (live_connections (net_log initial_world)).
  generalize initial_world. induction calls as [|call calls IH]; intros w; [done|].
  cbn. by rewrite IH, handle_live_connections.
Qed.

(** ** Credentials *)

(** X10. What GET /session/{id}/schema answers, and the session's entry in
    GET /sessions, depend on the stored request only through its [dbtype],
    host, port and schema name: the user name, the password and the declared
    table names never show. *)
Theorem read_endpoints_hide_credentials (c1 c2 : DatabaseConnection) (session_id : string)
    (conns : gmap string DatabaseConnection) (schemas : gmap string pyval)
    (log : list net_event) :
  dbtype c1 = dbtype c2 → host c1 = host c2 → port c1 = port c2 → schema c1 = schema c2 →
  snd (get_session_schema session_id
         {| db_connections := <[session_id := c1]> conns;
            session_schemas := schemas; net_log := log |})
  = snd (get_session_schema session_id
           {| db_connections := <[session_id := c2]> conns;
              session_schemas := schemas; net_log := log |})
  ∧ ∀ w, session_detail w session_id c1 = session_detail w session_id c2.
Proof.
  intros Hd Hh Hp Hs. split.
  - unfold get_session_schema. cbn. rewrite !lookup_insert_eq.
    destruct (schemas !! session_id); [|done]. cbn. by rewrite Hd, Hh, Hs.
  - intros w. unfold session_detail. by rewrite Hd, Hh, Hp, Hs.
Qed.

Lemma read_endpoints_hide_credentials_witness :
  snd (get_session_schema "s"
         {| db_connections := <[ "s" := mysql_example ]> ∅;
            session_schemas := {[ "s" := PyDict [] ]}; net_log := [] |})
  = snd (get_session_schema "s"
           {| db_connections :=
                <[ "s" := mkConnection "localhost" 3306 "alice" "secret" "mydb"
                            ["users"] "mysql" ]> ∅;
              session_schemas := {[ "s" := PyDict [] ]}; net_log := [] |}).
Proof.
  apply (read_endpoints_hide_credentials mysql_example
           (mkConnection "localhost" 3306 "alice" "secret" "mydb" ["users"] "mysql")
           "s" ∅ {[ "s" := PyDict [] ]} []); reflexivity.
Defined.

(** ** Fault-free introspection *)

Lemma dict_set_set {V} (d : list (string * V)) k v v' :
  Dict.set (Dict.set d k v) k v' = Dict.set d k v'.
Proof.
  induction d as [|[k0 v0] d IH]; cbn.
  - by rewrite decide_True.
  - destruct (decide (k0 = k)) as [->|Hne]; cbn.
    + by rewrite decide_True.
    + by rewrite decide_False, IH.
Qed.

Lemma with_log_app w l1 l2 :
  with_log (with_log w (net_log w ++ l1)) (net_log w ++ l1 ++ l2)
  = with_log w (net_log w ++ l1 ++ l2).
Proof. done. Qed.

(** A loop of requests none of which raises: its log and its result. *)
Lemma for_each_request_set_run {A} k (fault : string → option py_exception)
    (answer : string → A) (entry : A → pyval) xs acc w :
  (∀ x, x ∈ xs → fault x = None) →
  for_each xs acc (λ acc x,
    v <- request k (fault x) (answer x) ;; ret (Dict.set acc x (entry v))) w
  = (with_log w (net_log w ++ replicate (length xs) (EvRequest k)),
     inr (filled (λ x, entry (answer x)) xs acc)).
Proof.
  revert acc w. induction xs as [|x xs IH]; intros acc w Hok; cbn.
  - by rewrite app_nil_r, with_log_same.
  - unfold bind at 1. unfold bind at 1, request, log_event.
    rewrite (Hok x) by (by left). cbn.
    rewrite IH by (intros; apply Hok; by right). cbn.
    by rewrite <- app_assoc.
Qed.

(** The inner loop of the PostgreSQL connector fills the dictionary of the
    schema it was started for; [set_nested] never meets a missing key. *)
Lemma pg_tables_loop_run srv schema_name tbls table_info inner w :
  (∀ t, t ∈ tbls → sql_fault srv (SelectColumns schema_name t) = None) →
  for_each tbls (Dict.set table_info schema_name (PyDict inner))
    (λ table_info tbl,
      columns <- request Postgres (sql_fault srv (SelectColumns schema_name tbl))
                   (columns_query srv schema_name tbl) ;;
      set_nested table_info schema_name tbl (PyList (sql_column <$> columns))) w
  = (with_log w (net_log w ++ replicate (length tbls) (EvRequest Postgres)),
     inr (Dict.set table_info schema_name
            (PyDict (filled (table_columns srv schema_name) tbls inner)))).
Proof.
  revert inner w. induction tbls as [|t tbls IH]; intros inner w Hok; cbn.
  - by rewrite app_nil_r, with_log_same.
  - unfold bind at 1. unfold bind at 1, request, log_event.
    rewrite (Hok t) by (by left). cbn.
    unfold set_nested. rewrite dict_get_set, decide_True by done. cbn.
    rewrite dict_set_set, IH by (intros; apply Hok; by right). cbn.
    by rewrite <- app_assoc.
Qed.

Lemma pg_tables_loop_result srv schema_name tbls table_info inner w w' res :
  for_each tbls (Dict.set table_info schema_name (PyDict inner))
    (λ table_info tbl,
      columns <- request Postgres (sql_fault srv (SelectColumns schema_name tbl))
                   (columns_query srv schema_name tbl) ;;
      set_nested table_info schema_name tbl (PyList (sql_column <$> columns))) w
  = (w', inr res) →
  res = Dict.set table_info schema_name
          (PyDict (filled (table_columns srv schema_name) tbls inner)).
Proof.
  revert inner w. induction tbls as [|t tbls IH]; intros inner w; cbn.
  - by intros [= _ <-].
  - unfold bind at 1. unfold bind at 1, request, log_event.
    destruct (sql_fault srv (SelectColumns schema_name t)); cbn; [done|].
    unfold set_nested. rewrite dict_get_set, decide_True by done. cbn.
    rewrite dict_set_set. apply IH.
Qed.

Lemma pg_schemas_loop_run srv schemas table_info w :
  (∀ s, s ∈ schemas → sql_fault srv (SelectTables s) = None) →
  (∀ s t, s ∈ schemas → t ∈ tables_query srv s →
          sql_fault srv (SelectColumns s t) = None) →
  for_each schemas table_info (λ table_info schema_name,
    table_names <- request Postgres (sql_fault srv (SelectTables schema_name))
                     (tables_query srv schema_name) ;;
    for_each table_names (Dict.set table_info schema_name (PyDict []))
      (λ table_info tbl,
        columns <- request Postgres (sql_fault srv (SelectColumns schema_name tbl))
                     (columns_query srv schema_name tbl) ;;
        set_nested table_info schema_name tbl (PyList (sql_column <$> columns)))) w
  = (with_log w (net_log w
                 ++ replicate (length (schemas ≫= λ s, s :: tables_query srv s))
                      (EvRequest Postgres)),
     inr (filled (pg_schema_tables srv) schemas table_info)).
Proof.
  revert table_info w.
  induction schemas as [|s schemas IH]; intros table_info w Htables Hcolumns; cbn.
  - by rewrite app_nil_r, with_log_same.
  - unfold bind at 1. unfold bind at 1, request at 1, log_event.
    rewrite (Htables s) by (by left). cbn.
    rewrite pg_tables_loop_run by (intros; apply Hcolumns; [by left | done]). cbn.
    rewrite IH; cycle 1.
    { intros. apply Htables. by right. }
    { intros. apply Hcolumns; [by right | done]. }
    cbn. rewrite length_app, replicate_add. cbn.
    by rewrite <- !app_assoc.
Qed.

Lemma pg_schemas_loop_result srv schemas table_info w w' res :
  for_each schemas table_info (λ table_info schema_name,
    table_names <- request Postgres (sql_fault srv (SelectTables schema_name))
                     (tables_query srv schema_name) ;;
    for_each table_names (Dict.set table_info schema_name (PyDict []))
      (λ table_info tbl,
        columns <- request Postgres (sql_fault srv (SelectColumns schema_name tbl))
                     (columns_query srv schema_name tbl) ;;
        set_nested table_info schema_name tbl (PyList (sql_column <$> columns)))) w
  = (w', inr res) →
  res = filled (pg_schema_tables srv) schemas table_info.
Proof.
  revert table_info w. induction schemas as [|s schemas IH]; intros table_info w; cbn.
  - by intros [= _ <-].
  - unfold bind at 1. unfold bind at 1, request at 1, log_event.
    destruct (sql_fault srv (SelectTables s)); cbn; [done|].
    match goal with
    | |- context [for_each (tables_query srv s) ?acc ?body ?w0] =>
        destruct (for_each (tables_query srv s) acc body w0) as [w1 [e|acc']] eqn:Hinner
    end; [done|].
    apply pg_tables_loop_result in Hinner. subst acc'. apply IH.
Qed.

Lemma pg_introspect_result srv w w' table_info :
  pg_introspect srv w = (w', inr table_info) → table_info = pg_schema_info srv.
Proof.
  unfold pg_introspect. unfold bind at 1. unfold request at 1, bind at 1, log_event.
  destruct (sql_fault srv SelectSchemata); cbn; [done|].
  apply pg_schemas_loop_result.
Qed.

Lemma mysql_introspect_result srv c w w' table_info :
  mysql_introspect srv c w = (w', inr table_info) →
  table_info = mysql_schema_info srv (schema c).
Proof.
  unfold mysql_introspect. unfold bind at 1. unfold request at 1, bind at 1, log_event.
  destruct (sql_fault srv ShowTables); cbn; [done|].
  apply (for_each_request_set MySQL (λ t, sql_fault srv (SelectColumns (schema c) t))
           (columns_query srv (schema c)) (λ columns, PyList (sql_column <$> columns))).
Qed.

Lemma introspect_of_result net c k w w' table_info :
  introspect_of net c k w = (w', inr table_info) → table_info = schema_info_of net c k.
Proof.
  destruct k; cbn.
  - apply pg_introspect_result.
  - apply mysql_introspect_result.
  - apply mongo_introspect_result.
Qed.

Lemma no_fault_sql srv (steps : list sql_op) :
  ¬ (∃ op, op ∈ steps ∧ is_Some (sql_fault srv op)) →
  ∀ op, op ∈ steps → sql_fault srv op = None.
Proof.
  intros Hnone op Hin. destruct (sql_fault srv op) as [e|] eqn:He; [|done].
  destruct Hnone. exists op. split; [done|]. rewrite He. by eexists.
Qed.

Lemma no_fault_mongo srv (steps : list mongo_op) :
  ¬ (∃ op, op ∈ steps ∧ is_Some (mongo_fault srv op)) →
  ∀ op, op ∈ steps → mongo_fault srv op = None.
Proof.
  intros Hnone op Hin. destruct (mongo_fault srv op) as [e|] eqn:He; [|done].
  destruct Hnone. exists op. split; [done|]. rewrite He. by eexists.
Qed.

(** With no step raising, introspection makes exactly its requests and
    returns the schema. *)
Lemma introspect_of_run net c k w :
  ¬ backend_error net c k →
  introspect_of net c k w
  = (with_log w (net_log w ++ replicate (request_count net c k) (EvRequest k)),
     inr (schema_info_of net c k)).
Proof.
  destruct k; cbn; intros Hnone.
  - pose proof (no_fault_sql _ _ Hnone) as Hok. unfold pg_steps in Hok.
    unfold pg_introspect. unfold bind at 1. unfold request at 1, bind at 1, log_event.
    rewrite (Hok SelectSchemata) by (right; left). cbn.
    rewrite pg_schemas_loop_run; cycle 1.
    { intros s Hs. apply Hok. do 2 right.
      apply list_elem_of_bind. exists s. split; [by left | done]. }
    { intros s t Hs Ht. apply Hok. do 2 right.
      apply list_elem_of_bind. exists s. split; [|done].
      right. by apply list_elem_of_fmap_2. }
    cbn. by rewrite <- app_assoc.
  - pose proof (no_fault_sql _ _ Hnone) as Hok. unfold mysql_steps in Hok.
    unfold mysql_introspect. unfold bind at 1. unfold request at 1, bind at 1, log_event.
    rewrite (Hok ShowTables) by (right; left). cbn.
    rewrite (for_each_request_set_run MySQL
               (λ t, sql_fault (mysql_server net) (SelectColumns (schema c) t))
               (columns_query (mysql_server net) (schema c))
               (λ columns, PyList (sql_column <$> columns))); cycle 1.
    { intros t Ht. apply Hok. do 2 right. by apply list_elem_of_fmap_2. }
    cbn. by rewrite <- app_assoc.
  - pose proof (no_fault_mongo _ _ Hnone) as Hok. unfold mongo_steps in Hok.
    unfold mongo_introspect.
    rewrite (Hok (GetDatabase (schema c))) by (right; left).
    unfold bind at 1. unfold request at 1, bind at 1, log_event.
    rewrite (Hok ServerInfo) by (do 2 right; left). cbn.
    unfold bind at 1. unfold request at 1, bind at 1, log_event.
    rewrite (Hok ListCollectionNames) by (do 3 right; left). cbn.
    rewrite (for_each_request_set_run Mongo
               (λ x, mongo_fault (mongo_server net) (FindOne x))
               (first_document (mongo_server net) (schema c)) collection_columns);
      cycle 1.
    { intros t Ht. apply Hok. do 4 right. by apply list_elem_of_fmap_2. }
    cbn. by rewrite <- !app_assoc.
Qed.

(** X11. On a supported type, when no step of the connector raises and
    [close] does not raise, connectDB succeeds: it returns the derived id
    and the schema, stores both under that id, and the connection log grows
    by one connect, the requests of the introspection (for MySQL one plus
    one per table: there is no batching), and one close. *)
Theorem connectDB_fault_free_run (net : Network) (connection : DatabaseConnection)
    (k : dbkind) (w : World) :
  declared_backend connection = Some k →
  ¬ backend_error net connection k →
  close_fault_of net k = None →
  connect_database net connection w
  = ({| db_connections := <[session_id_of connection := connection]> (db_connections w);
        session_schemas :=
          <[session_id_of connection := PyDict (schema_info_of net connection k)]>
            (session_schemas w);
        net_log := net_log w ++ EvConnect k true
                     :: replicate (request_count net connection k) (EvRequest k)
                     ++ [EvClose k] |},
     inr (PyDict [ ("status", PyStr "success");
                   ("session_id", PyStr (session_id_of connection));
                   ("schema_info", PyDict (schema_info_of net connection k)) ])).
Proof.
  intros Hk Hnone Hclose.
  assert (open_fault_of net k = None) as Hopen.
  { destruct (open_fault_of net k) as [e|] eqn:He; [|done].
    destruct Hnone. destruct k; cbn in *; eexists; (split; [by left|]);
      rewrite He; by eexists. }
  rewrite (connect_database_supported _ _ k) by done.
  assert (connector_of net connection k
          = connector k (open_fault_of net k) (close_fault_of net k)
              (caught_of k) (prefix_of k)
              (table_info <- introspect_of net connection k ;;
               register_session connection table_info)) as -> by by destruct k.
  rewrite Hopen, Hclose. unfold connector, log_event, bind.
  rewrite !introspect_of_run by done. cbn.
  by rewrite <- !app_assoc.
Qed.

Lemma connectDB_fault_free_run_witness :
  snd (connect_database example_net mysql_example initial_world)
  = inr (PyDict [ ("status", PyStr "success");
                  ("session_id", PyStr (session_id_of mysql_example));
                  ("schema_info", PyDict (schema_info_of example_net mysql_example MySQL)) ])
  ∧ net_log (fst (connect_database example_net mysql_example initial_world))
    = [EvConnect MySQL true; EvRequest MySQL; EvRequest MySQL; EvClose MySQL].
Proof.
  rewrite (connectDB_fault_free_run example_net mysql_example MySQL initial_world).
  - split; reflexivity.
  - vm_compute. reflexivity.
  - intros (op & _ & [e He]). vm_compute in He. discriminate He.
  - reflexivity.
Defined.

(** ** The schema of a relational backend *)

(** A successful connector returned and stored the schema of its backend. *)
Lemma connector_of_success net c k w w' v :
  connector_of net c k w = (w', inr v) →
  v = connect_response (session_id_of c) (schema_info_of net c k)
  ∧ db_connections w' = <[session_id_of c := c]> (db_connections w)
  ∧ session_schemas w'
    = <[session_id_of c := PyDict (schema_info_of net c k)]> (session_schemas w).
Proof.
  intros Hcall. pose proof (connector_of_outcome net c k w) as Hout.
  rewrite Hcall in Hout. cbn [fst snd] in Hout.
  inversion Hout as [e He|reqs e Ho Hreqs Hi Hw Hr|reqs ti Ho Hreqs Hi Hw Hr].
  { unfold after_close in Hr. by destruct (close_fault_of net k). }
  unfold after_close in Hr. destruct (close_fault_of net k); [done|].
  injection Hr as <-.
  destruct (introspect_of net c k (with_log w (net_log w ++ [EvConnect k true])))
    as [w0 r] eqn:Hrun.
  cbn in Hi. subst r. apply introspect_of_result in Hrun. by subst ti.
Qed.

Lemma pg_schema_tables_shape srv s :
  ∃ inner,
    pg_schema_tables srv s = PyDict inner
    ∧ NoDup (Dict.keys inner)
    ∧ (∀ t, t ∈ Dict.keys inner ↔ t ∈ tables_query srv s)
    ∧ (∀ t, t ∈ tables_query srv s →
         Dict.get inner t = Some (PyList (sql_column <$> columns_query srv s t))).
Proof.
  eexists. split; [reflexivity|].
  split; [apply filled_NoDup, NoDup_nil_2|]. split.
  - intros t. rewrite filled_keys. cbn. split; [|by left].
    by intros [|?%elem_of_nil].
  - intros t Ht. by rewrite filled_get, decide_True.
Qed.

(** X12. The schema a successful PostgreSQL connect returns has one entry
    per schema of the database other than [pg_catalog] and
    [information_schema]; the entry is a dictionary with one key per base
    table of that schema, whose value lists the table's columns in ordinal
    order, one record per row of [information_schema.columns]. *)
Theorem postgresql_schema_entries (srv : SqlServer) (connection : DatabaseConnection)
    (w w' : World) (v : pyval) :
  connect_postgresql srv connection w = (w', inr v) →
  ∃ table_info,
    v = connect_response (session_id_of connection) table_info
    ∧ NoDup (Dict.keys table_info)
    ∧ (∀ s, s ∈ Dict.keys table_info
            ↔ s ∈ schemata srv ∧ s ≠ "pg_catalog" ∧ s ≠ "information_schema")
    ∧ (∀ s, s ∈ Dict.keys table_info →
         ∃ inner,
           Dict.get table_info s = Some (PyDict inner)
           ∧ NoDup (Dict.keys inner)
           ∧ (∀ t, t ∈ Dict.keys inner
                   ↔ ∃ row, row ∈ tables srv ∧ table_schema row = s
                            ∧ table_type row = "BASE TABLE" ∧ table_name row = t)
           ∧ (∀ t, t ∈ Dict.keys inner →
                ∃ rows,
                  Dict.get inner t = Some (PyList (sql_column <$> rows))
                  ∧ Sorted by_ordinal rows
                  ∧ rows ≡ₚ filter (λ r, col_table_schema r = s ∧ col_table_name r = t)
                              (columns srv))).
Proof.
  intros Hcall.
  pose (net := {| pg_server := srv; mysql_server := srv;
                  mongo_server := mkMongoServer (λ _, None) (λ _, []) (λ _ _, None) |}).
  destruct (connector_of_success net connection Postgres w w' v Hcall) as (-> & _ & _).
  exists (pg_schema_info srv). split; [done|]. unfold pg_schema_info.
  split; [apply filled_NoDup, NoDup_nil_2|].
  assert (∀ s, s ∈ Dict.keys (filled (pg_schema_tables srv) (schemas_query srv) [])
               ↔ s ∈ schemas_query srv) as Hkeys.
  { intros s. rewrite filled_keys. cbn. split; [|by left]. by intros [|?%elem_of_nil]. }
  split.
  - intros s. rewrite Hkeys. unfold schemas_query. rewrite list_elem_of_filter. tauto.
  - intros s Hs%Hkeys.
    destruct (pg_schema_tables_shape srv s) as (inner & Hinner & Hnodup & Hin & Hget).
    exists inner. rewrite filled_get, decide_True by done.
    split; [by rewrite Hinner|]. split; [done|]. split.
    + intros t. rewrite Hin. unfold tables_query.
      rewrite list_elem_of_fmap. split.
      * intros (row & -> & [[? ?] ?]%list_elem_of_filter). by exists row.
      * intros (row & ? & ? & ? & <-). exists row. split; [done|].
        by apply list_elem_of_filter.
    + intros t Ht%Hin. exists (columns_query srv s t).
      split; [by apply Hget|]. split.
      * apply columns_query_sorted.
      * apply columns_query_rows.
Qed.

Lemma postgresql_schema_entries_witness :
  ∃ table_info,
    returned (snd (connect_postgresql users_server postgresql_example initial_world))
    = connect_response "localhost:5432:mydatabase" table_info
    ∧ ("pg_catalog" ∈ Dict.keys table_info
       ↔ "pg_catalog" ∈ schemata users_server
         ∧ "pg_catalog" ≠ "pg_catalog" ∧ "pg_catalog" ≠ "information_schema").
Proof.
  destruct (postgresql_schema_entries users_server postgresql_example initial_world
              (fst (connect_postgresql users_server postgresql_example initial_world))
              (returned (snd (connect_postgresql users_server postgresql_example
                                initial_world))))
    as (table_info & Hv & _ & Hkeys & _).
  - vm_compute. reflexivity.
  - exists table_info. split; [exact Hv | apply Hkeys].
Defined.

(** X13. The schema a successful MySQL connect returns has one entry per
    table that SHOW TABLES lists for the database, whose value lists the
    table's columns in ordinal order, one record per row of
    [INFORMATION_SCHEMA.COLUMNS]; the schema is flat, with no level for the
    database. *)
Theorem mysql_schema_entries (srv : SqlServer) (connection : DatabaseConnection)
    (w w' : World) (v : pyval) :
  connect_mysql srv connection w = (w', inr v) →
  ∃ table_info,
    v = connect_response (session_id_of connection) table_info
    ∧ NoDup (Dict.keys table_info)
    ∧ (∀ t, t ∈ Dict.keys table_info
            ↔ ∃ row, row ∈ tables srv ∧ table_schema row = schema connection
                     ∧ table_name row = t)
    ∧ (∀ t, t ∈ Dict.keys table_info →
         ∃ rows,
           Dict.get table_info t = Some (PyList (sql_column <$> rows))
           ∧ Sorted by_ordinal rows
           ∧ rows ≡ₚ filter (λ r, col_table_schema r = schema connection
                                  ∧ col_table_name r = t) (columns srv)).
Proof.
  intros Hcall.
  pose (net := {| pg_server := srv; mysql_server := srv;
                  mongo_server := mkMongoServer (λ _, None) (λ _, []) (λ _ _, None) |}).
  destruct (connector_of_success net connection MySQL w w' v Hcall) as (-> & _ & _).
  exists (mysql_schema_info srv (schema connection)). split; [done|].
  unfold mysql_schema_info.
  split; [apply filled_NoDup, NoDup_nil_2|].
  assert (∀ t, t ∈ Dict.keys (filled (table_columns srv (schema connection))
                                (show_tables srv (schema connection)) [])
               ↔ t ∈ show_tables srv (schema connection)) as Hkeys.
  { intros t. rewrite filled_keys. cbn. split; [|by left]. by intros [|?%elem_of_nil]. }
  split.
  - intros t. rewrite Hkeys. unfold show_tables. rewrite list_elem_of_fmap. split.
    + intros (row & -> & [? ?]%list_elem_of_filter). by exists row.
    + intros (row & ? & ? & <-). exists row. split; [done|].
      by apply list_elem_of_filter.
  - intros t Ht%Hkeys. exists (columns_query srv (schema connection) t).
    rewrite filled_get, decide_True by done.
    split; [done|]. split.
    + apply columns_query_sorted.
    + apply columns_query_rows.
Qed.

Lemma mysql_schema_entries_witness :
  ∃ table_info,
    returned (snd (connect_mysql users_server mysql_example initial_world))
    = connect_response "localhost:3306:mydb" table_info
    ∧ NoDup (Dict.keys table_info).
Proof.
  destruct (mysql_schema_entries users_server mysql_example initial_world
              (fst (connect_mysql users_server mysql_example initial_world))
              (returned (snd (connect_mysql users_server mysql_example initial_world))))
    as (table_info & Hv & Hnodup & _).
  - vm_compute. reflexivity.
  - exists table_info. split; [exact Hv | exact Hnodup].
Defined.

(** ** Posting a returned schema back *)

Lemma reraise_inr r v : reraise r = inr v → r = inr v.
Proof. by destruct r as [[]|]. Qed.

Lemma connect_database_success_kind net c w w' v :
  connect_database net c w = (w', inr v) →
  ∃ k, declared_backend c = Some k ∧ connector_of net c k w = (w', inr v).
Proof.
  destruct (declared_backend c) as [k|] eqn:Hk.
  - rewrite (connect_database_supported _ _ k) by done.
    intros [= Hw Hr%reraise_inr]. exists k. split; [done|].
    rewrite <- Hw, <- Hr. by destruct (connector_of net c k w).
  - by rewrite connect_database_unsupported.
Qed.

Lemma valid_schema_set d k v :
  valid_schema d → valid_table v → valid_schema (Dict.set d k v).
Proof.
  unfold valid_schema. intros Hd Hv.
  induction Hd as [|[k0 v0] d H0 Hd IH]; cbn.
  - by repeat constructor.
  - case_decide; constructor; done.
Qed.

Lemma valid_schema_filled entry xs d :
  (∀ x, valid_table (entry x)) → valid_schema d → valid_schema (filled entry xs d).
Proof.
  intros Hentry. revert d. induction xs as [|x xs IH]; intros d Hd; [done|].
  cbn. by apply IH, valid_schema_set.
Qed.

Lemma valid_column_record name type nullable default max_length :
  valid_column (column_record name type nullable default max_length).
Proof. eexists. split; [reflexivity|]. cbn. by left. Qed.

Lemma valid_table_columns srv s t : valid_table (table_columns srv s t).
Proof.
  eexists. split; [reflexivity|]. apply Forall_fmap, Forall_forall.
  intros col _. apply valid_column_record.
Qed.

Lemma valid_collection_columns sample_doc : valid_table (collection_columns sample_doc).
Proof.
  destruct sample_doc as [[|item items]|]; cbn;
    (eexists; split; [reflexivity|]); try by constructor.
  change (Forall valid_column (mongo_column <$> item :: items)).
  apply Forall_fmap, Forall_forall. intros field _. apply valid_column_record.
Qed.

(** X14. The schema a successful MySQL or MongoDB connect returns passes
    the validation of setsessionSchema: posted back for the returned session
    id it is accepted, and the world stays as it is. *)
Theorem flat_schema_posts_back (net : Network) (connection : DatabaseConnection)
    (w w' : World) (v : pyval) :
  py_strip (py_lower (dbtype connection)) ≠ "postgresql" →
  connect_database net connection w = (w', inr v) →
  ∃ table_info,
    v = connect_response (session_id_of connection) table_info
    ∧ valid_schema table_info
    ∧ fst (set_session_schema (session_id_of connection) table_info w') = w'
    ∧ ∃ v', snd (set_session_schema (session_id_of connection) table_info w') = inr v'.
Proof.
  intros Hnotpg (k & Hk & Hcall)%connect_database_success_kind.
  apply connector_of_success in Hcall as (-> & Hdb & Hsch).
  exists (schema_info_of net connection k). split; [done|].
  assert (valid_schema (schema_info_of net connection k)) as Hvalid.
  { destruct k; cbn.
    - unfold declared_backend in Hk. cbn zeta in Hk.
      rewrite decide_False in Hk by done. by repeat case_decide.
    - apply valid_schema_filled; [apply valid_table_columns | constructor].
    - apply valid_schema_filled; [intros; apply valid_collection_columns | constructor]. }
  split; [done|]. apply check_schema_valid in Hvalid.
  unfold set_session_schema. rewrite Hdb, lookup_insert_eq, Hvalid. cbn.
  split; [|by eexists].
  rewrite Hsch, insert_insert_eq, <- Hsch. by destruct w'.
Qed.

Lemma flat_schema_posts_back_witness :
  ∃ table_info,
    returned (snd (connect_database example_net mongodb_example initial_world))
    = connect_response "localhost:27017:mydb" table_info
    ∧ valid_schema table_info.
Proof.
  destruct (flat_schema_posts_back example_net mongodb_example initial_world
              (fst (connect_database example_net mongodb_example initial_world))
              (returned (snd (connect_database example_net mongodb_example
                                initial_world))))
    as (table_info & Hv & Hvalid & _).
  - vm_compute. discriminate.
  - vm_compute. reflexivity.
  - exists table_info. split; [exact Hv | exact Hvalid].
Defined.

Lemma dict_get_elem {V} (d : list (string * V)) k v :
  Dict.get d k = Some v → (k, v) ∈ d.
Proof.
  induction d as [|[k0 v0] d IH]; cbn; [done|].
  case_decide; subst.
  - intros [= ->]. by left.
  - intros ?%IH. by right.
Qed.

(** X15. The schema a successful PostgreSQL connect returns is nested one
    level under the schema name: when the database has a schema besides the
    two catalogs, the value under that schema's name is a dictionary, not a
    list. So, unlike a MySQL or MongoDB result, the returned schema is not a
    body of the type setsessionSchema declares, and it does not satisfy the
    handler's validation either. *)
Theorem postgresql_schema_is_not_an_override_body (net : Network)
    (connection : DatabaseConnection) (w w' : World) (v : pyval) :
  py_strip (py_lower (dbtype connection)) = "postgresql" →
  (∃ s, s ∈ schemata (pg_server net) ∧ s ≠ "pg_catalog" ∧ s ≠ "information_schema") →
  connect_database net connection w = (w', inr v) →
  ∃ table_info s inner,
    v = connect_response (session_id_of connection) table_info
    ∧ s ∈ schemata (pg_server net)
    ∧ Dict.get table_info s = Some (PyDict inner)
    ∧ ¬ declared_body table_info
    ∧ ¬ valid_schema table_info.
Proof.
  intros Hpg (s & Hs & Hs1 & Hs2) (k & Hk & Hcall)%connect_database_success_kind.
  assert (k = Postgres) as ->.
  { unfold declared_backend in Hk. cbn zeta in Hk.
    rewrite decide_True in Hk by done. congruence. }
  apply connector_of_success in Hcall as (-> & _ & _).
  cbn [schema_info_of]. unfold pg_schema_info.
  assert (s ∈ schemas_query (pg_server net)) as Hq.
  { unfold schemas_query. by apply list_elem_of_filter. }
  destruct (pg_schema_tables_shape (pg_server net) s) as (inner & Hinner & _).
  exists (filled (pg_schema_tables (pg_server net)) (schemas_query (pg_server net)) []),
    s, inner.
  assert (Dict.get (filled (pg_schema_tables (pg_server net))
                      (schemas_query (pg_server net)) []) s = Some (PyDict inner))
    as Hget by (by rewrite filled_get, decide_True, Hinner).
  apply dict_get_elem in Hget as Hin.
  split; [done|]. split; [done|]. split; [done|]. split.
  - intros Hbody. unfold declared_body in Hbody.
    rewrite Forall_forall in Hbody. by destruct (Hbody _ Hin) as (l & ? & _).
  - intros Hvalid. unfold valid_schema in Hvalid.
    rewrite Forall_forall in Hvalid. by destruct (Hvalid _ Hin) as (l & ? & _).
Qed.

Lemma postgresql_schema_is_not_an_override_body_witness :
  ∃ table_info s inner,
    returned (snd (connect_database example_net postgresql_example initial_world))
    = connect_response "localhost:5432:mydatabase" table_info
    ∧ s ∈ schemata users_server
    ∧ Dict.get table_info s = Some (PyDict inner)
    ∧ ¬ declared_body table_info.
Proof.
  destruct (postgresql_schema_is_not_an_override_body example_net postgresql_example
              initial_world connected_world
              (returned (snd (connect_database example_net postgresql_example
                                initial_world))))
    as (table_info & s & inner & Hv & Hs & Hget & Hbody & _).
  - vm_compute. reflexivity.
  - exists "public". split; [|split; discriminate].
    apply list_elem_of_In. cbn. tauto.
  - vm_compute. reflexivity.
  - exists table_info, s, inner. split; [exact Hv|]. split; [exact Hs|].
    split; [exact Hget | exact Hbody].
Defined.

(** ** Normalising the database type *)

Lemma isspace_lower_char c : isspace (lower_char c) = isspace c.
Proof. destruct c as [[] [] [] [] [] [] [] []]; reflexivity. Qed.

Lemma lower_char_space c : isspace c = true → lower_char c = c.
Proof. destruct c as [[] [] [] [] [] [] [] []]; (reflexivity || discriminate). Qed.

Lemma py_lower_app s1 s2 : py_lower (s1 +:+ s2) = py_lower s1 +:+ py_lower s2.
Proof. induction s1 as [|c s1 IH]; simpl; [done|]. rewrite IH. reflexivity. Qed.

Lemma py_lower_space s : all_space s → py_lower s = s.
Proof.
  induction s as [|c s IH]; cbn; [done|]. intros [Hc Hs].
  by rewrite lower_char_space, IH.
Qed.

Lemma lstrip_space s : all_space s → lstrip s = EmptyString.
Proof. induction s as [|c s IH]; cbn; [done|]. intros [-> Hs]. by apply IH. Qed.

Lemma rstrip_space s : all_space s → rstrip s = EmptyString.
Proof.
  induction s as [|c s IH]; cbn; [done|]. intros [Hc Hs]. by rewrite IH, Hc.
Qed.

Lemma lstrip_pad pre s : all_space pre → lstrip (pre +:+ s) = lstrip s.
Proof.
  induction pre as [|c pre IH]; [done|]. intros [Hc Hs].
  change (lstrip (String c (pre +:+ s)) = lstrip s). cbn. rewrite Hc. by apply IH.
Qed.

Lemma rstrip_pad s post : all_space post → rstrip (s +:+ post) = rstrip s.
Proof.
  intros Hpost. induction s as [|c s IH].
  - by apply rstrip_space.
  - change (rstrip (String c (s +:+ post)) = rstrip (String c s)). cbn. by rewrite IH.
Qed.

Lemma strip_pad_right s post :
  all_space post → rstrip (lstrip (s +:+ post)) = rstrip (lstrip s).
Proof.
  intros Hpost. induction s as [|c s IH].
  - change (rstrip (lstrip post) = EmptyString). by rewrite lstrip_space.
  - change (rstrip (lstrip (String c (s +:+ post))) = rstrip (lstrip (String c s))).
    cbn [lstrip]. destruct (isspace c); [done|].
    change (String c (s +:+ post)) with (String c s +:+ post). by apply rstrip_pad.
Qed.

Lemma py_strip_pad pre s post :
  all_space pre → all_space post → py_strip (pre +:+ s +:+ post) = py_strip s.
Proof.
  intros Hpre Hpost. unfold py_strip. by rewrite lstrip_pad, strip_pad_right.
Qed.

(** X16. The database type is matched without regard to case and to ASCII
    whitespace around it: a request whose [dbtype] is a backend's name in
    any capitalisation, padded with whitespace on either side, is handed to
    that backend's connector. *)
Theorem connectDB_dbtype_case_and_padding (net : Network) (connection : DatabaseConnection)
    (k : dbkind) (pre name post : string) (w : World) :
  all_space pre → all_space post →
  py_lower name = backend_name k →
  dbtype connection = pre +:+ name +:+ post →
  connect_database net connection w
  = (fst (connector_of net connection k w), reraise (snd (connector_of net connection k w))).
Proof.
  intros Hpre Hpost Hname Hdbtype. apply connect_database_supported.
  unfold declared_backend. rewrite Hdbtype, !py_lower_app, Hname.
  rewrite (py_lower_space pre), (py_lower_space post) by done.
  rewrite py_strip_pad by done. by destruct k.
Qed.

Lemma connectDB_dbtype_case_and_padding_witness :
  connect_database example_net padded_mysql_request initial_world
  = (fst (connect_mysql users_server padded_mysql_request initial_world),
     reraise (snd (connect_mysql users_server padded_mysql_request initial_world))).
Proof.
  apply (connectDB_dbtype_case_and_padding example_net padded_mysql_request MySQL
           " " "MySQL" " " initial_world).
  - cbn. tauto.
  - cbn. tauto.
  - reflexivity.
  - reflexivity.
Defined.

(** ** Refused connections *)

(** X17. When the connect call itself raises, the answer is 500; its detail
    is the exception's message after the connector's own prefix if the
    exception is of the class the connector catches ([asyncpg.PostgresError]
    for PostgreSQL, [aiomysql.Error] for MySQL, any for MongoDB) and after
    "Database connection failed: " otherwise. Nothing is requested or
    closed, and the registries are unchanged. *)
Theorem connectDB_refused (net : Network) (connection : DatabaseConnection)
    (k : dbkind) (e : py_exception) (w : World) :
  py_strip (py_lower (dbtype connection)) = backend_name k →
  match k with
  | Postgres => sql_fault (pg_server net) SqlConnect
  | MySQL => sql_fault (mysql_server net) SqlConnect
  | Mongo => mongo_fault (mongo_server net) NewClient
  end = Some e →
  connect_database net connection w
  = (with_log w (net_log w ++ [EvConnect k false]),
     inl (HTTPException 500
            ((match k, exn_cls e with
              | Postgres, PostgresError => "PostgreSQL error: "
              | MySQL, MySQLError => "MySQL error: "
              | Mongo, _ => "MongoDB connection error: "
              | _, _ => "Database connection failed: "
              end) +:+ exn_msg e))).
Proof.
  intros Hname Hfault.
  assert (declared_backend connection = Some k) as Hk.
  { unfold declared_backend. rewrite Hname. by destruct k. }
  rewrite (connect_database_supported _ _ k) by done.
  destruct k; cbn [connector_of]; unfold connect_postgresql, connect_mysql, connect_mongodb,
    connector, log_event; rewrite Hfault; cbn; by destruct (exn_cls e).
Qed.

Lemma connectDB_refused_witness :
  connect_database unreachable_net postgresql_example initial_world
  = (with_log initial_world [EvConnect Postgres false],
     inl (HTTPException 500 "Database connection failed: Connection refused")).
Proof.
  apply (connectDB_refused unreachable_net postgresql_example Postgres
           (PyException OtherException "Connection refused") initial_world);
    reflexivity.
Defined.

(** ** When session ids collide *)

Lemma pretty_N_char_no_colon d : pretty_N_char d ≠ ":"%char.
Proof. unfold pretty_N_char. by repeat case_match. Qed.

Lemma pretty_N_go_no_colon x s : no_colon s → no_colon (pretty_N_go x s).
Proof.
  revert s. induction (N.lt_wf_0 x) as [x _ IH]; intros s Hs.
  destruct (decide (x = 0)%N) as [->|Hx].
  - by rewrite pretty_N_go_0.
  - rewrite pretty_N_go_step by lia. apply IH.
    + apply N.div_lt; lia.
    + split; [apply pretty_N_char_no_colon | done].
Qed.

Lemma str_int_no_colon n : no_colon (str_int n).
Proof.
  assert (∀ p : positive, no_colon (pretty p)) as Hpos.
  { intros p. unfold pretty, pretty_positive, pretty, pretty_N.
    rewrite decide_False by done. by apply pretty_N_go_no_colon. }
  unfold str_int, pretty, pretty_Z.
  destruct n as [|p|p]; [done | apply Hpos |].
  split; [done | apply Hpos].
Qed.

Lemma append_cons c s t : String c s +:+ t = String c (s +:+ t).
Proof. reflexivity. Qed.

Lemma append_nil t : EmptyString +:+ t = t.
Proof. reflexivity. Qed.

(** The text before the first colon, and the text after it. *)
Lemma split_at_colon a1 a2 r1 r2 :
  no_colon a1 → no_colon a2 →
  a1 +:+ ":" +:+ r1 = a2 +:+ ":" +:+ r2 → a1 = a2 ∧ r1 = r2.
Proof.
  revert a2. induction a1 as [|c a1 IH]; intros [|c2 a2] H1 H2 Heq;
    rewrite ?append_nil, ?append_cons in Heq.
  - split; [done|]. injection Heq as Heq. exact Heq.
  - injection Heq as Hc _. destruct H2 as [H2 _]. by destruct H2.
  - injection Heq as Hc _. destruct H1 as [H1 _]. by destruct H1.
  - injection Heq as -> Heq. destruct H1 as [_ H1], H2 as [_ H2].
    destruct (IH a2 H1 H2 Heq) as [-> ->]. done.
Qed.

(** X18. Two requests whose hosts contain no colon derive the same session
    id only if they agree on host, port and schema name. With colons in the
    host (an IPv6 address, say) this fails: different hosts, ports and
    schema names can derive one id. *)
Theorem session_id_collisions :
  (∀ c1 c2 : DatabaseConnection,
     no_colon (host c1) → no_colon (host c2) →
     session_id_of c1 = session_id_of c2 →
     host c1 = host c2 ∧ port c1 = port c2 ∧ schema c1 = schema c2)
  ∧ session_id_of (mkConnection "::1" 5432 "u" "p" "db" [] "postgresql")
    = session_id_of (mkConnection ":" 1 "u" "p" "5432:db" [] "postgresql").
Proof.
  split; [|vm_compute; reflexivity].
  intros c1 c2 H1 H2 Heq. unfold session_id_of in Heq.
  apply split_at_colon in Heq as [Hhost Heq]; [|done..].
  apply split_at_colon in Heq as [Hport Hschema]; [|apply str_int_no_colon..].
  split; [done|]. split; [|done].
  by apply (inj pretty) in Hport.
Qed.

Lemma session_id_collisions_witness :
  host mysql_example = host (mkConnection "localhost" 3306 "alice" "secret" "mydb" [] "MySQL")
  ∧ port mysql_example = 3306 ∧ schema mysql_example = "mydb".
Proof.
  apply (proj1 session_id_collisions mysql_example
           (mkConnection "localhost" 3306 "alice" "secret" "mydb" [] "MySQL")).
  - cbn. repeat split; discriminate.
  - cbn. repeat split; discriminate.
  - reflexivity.
Defined.

(** ** Where sessions come from *)

Lemma handle_sessions_from history call w :
  sessions_from history w → sessions_from (history ++ [call]) (fst (handle call w)).
Proof.
  intros Hw.
  assert (sessions_from (history ++ [call]) w) as Hw'.
  { intros sid c Hc. destruct (Hw sid c Hc) as [? [net ?]].
    split; [done|]. exists net. apply elem_of_app. by left. }
  destruct call as [net c|sid body| |sid|sid]; cbn.
  - destruct (connect_database_registry net c w) as [[Hdb _]|(ti & Hdb & _)];
      intros sid c'; rewrite Hdb; [by apply Hw'|].
    destruct (decide (session_id_of c = sid)) as [<-|Hne].
    + rewrite lookup_insert_eq. intros [= <-]. split; [done|].
      exists net. apply elem_of_app. right. by left.
    + rewrite lookup_insert_ne by done. by apply Hw'.
  - destruct (set_session_schema_registry sid body w) as [Hdb _].
    intros sid' c'. rewrite Hdb. by apply Hw'.
  - done.
  - unfold get_session_schema.
    by destruct (db_connections w !! sid), (session_schemas w !! sid).
  - unfold delete_session. destruct (db_connections w !! sid); [|done]. cbn.
    intros sid' c' Hc. cbn in Hc. apply lookup_delete_Some in Hc as [_ Hc].
    by apply Hw'.
Qed.

Lemma run_calls_sessions_from history calls w :
  sessions_from history w → sessions_from (history ++ calls) (run_calls calls w).
Proof.
  revert history w. induction calls as [|call calls IH]; intros history w Hw; cbn.
  - by rewrite app_nil_r.
  - replace (history ++ call :: calls) with ((history ++ [call]) ++ calls)
      by by rewrite <- app_assoc.
    by apply IH, handle_sessions_from.
Qed.

(** X19. In every world reached from the empty one by API calls, each
    registered session was created by a connectDB call of the run: the
    request stored under a session id is the request of such a call, and it
    derives that id. No other endpoint creates a session. *)
Theorem sessions_come_from_connects (calls : list api_call) (session_id : string)
    (c : DatabaseConnection) :
  db_connections (run_calls calls initial_world) !! session_id = Some c →
  session_id = host c +:+ ":" +:+ str_int (port c) +:+ ":" +:+ schema c
  ∧ ∃ net, ConnectDB net c ∈ calls.
Proof.
  intros Hc.
  destruct (run_calls_sessions_from [] calls initial_world) with session_id c
    as [Hsid Hcall]; [by intros ? ? ? | exact Hc |].
  by split.
Qed.

Lemma sessions_come_from_connects_witness :
  "localhost:3306:mydb"
  = host mysql_example +:+ ":" +:+ str_int (port mysql_example) +:+ ":"
      +:+ schema mysql_example
  ∧ ∃ net, ConnectDB net mysql_example
             ∈ [ConnectDB example_net mysql_example; DeleteSession "nobody"].
Proof.
  apply (sessions_come_from_connects
           [ConnectDB example_net mysql_example; DeleteSession "nobody"]
           "localhost:3306:mydb" mysql_example).
  vm_compute. reflexivity.
Defined.

(** ** The documented example *)

(** X20. The request documented by GET /example/setsessionSchema works
    after the PostgreSQL request documented by GET /example/connectDB has
    connected: the example's session id is the one that connect derives, its
    body passes validation, the call succeeds, and GET
    /session/{id}/schema then answers with the example's body. *)
Theorem documented_example_accepted (net : Network) (w w' : World) (v : pyval) :
  connect_database net postgresql_example w = (w', inr v) →
  session_id_of postgresql_example = example_set_session_schema_session_id
  ∧ snd (set_session_schema example_set_session_schema_session_id
           example_set_session_schema_body w')
    = inr (PyDict [ ("status", PyStr "success");
                    ("message", PyStr "Session schema set successfully");
                    ("session_id", PyStr "localhost:5432:mydatabase");
                    ("tables", PyList [PyStr "users"; PyStr "products"]) ])
  ∧ ∃ info,
      snd (get_session_schema example_set_session_schema_session_id
             (fst (set_session_schema example_set_session_schema_session_id
                     example_set_session_schema_body w')))
      = inr (PyDict [ ("session_id", PyStr "localhost:5432:mydatabase");
                      ("schema", PyDict example_set_session_schema_body);
                      ("connection_info", info) ]).
Proof.
  intros (ti & -> & Hdb & Hsch)%connect_database_success.
  assert (session_id_of postgresql_example = example_set_session_schema_session_id)
    as Hsid by (vm_compute; reflexivity).
  rewrite Hsid in Hdb, Hsch. split; [done|].
  unfold set_session_schema. rewrite Hdb, lookup_insert_eq.
  assert (check_schema example_set_session_schema_body = None) as ->
    by (vm_compute; reflexivity).
  cbn [bind store_schema ret fst snd]. split; [done|].
  unfold get_session_schema. cbn [db_connections session_schemas].
  rewrite Hdb, !lookup_insert_eq. by eexists.
Qed.

Lemma documented_example_accepted_witness :
  session_id_of postgresql_example = example_set_session_schema_session_id.
Proof.
  refine (proj1 (documented_example_accepted example_net initial_world
                   connected_world _ _)).
  vm_compute. reflexivity.
Defined.
